(** * compare-packagexml-files: the manifest comparison pipeline

    A shallow embedding of [packagexml-diff.js] and its helper modules
    ([utils.js], [async-fs-utils.js], [async-line-remove.js]).  Promises
    become a result type threaded through an explicit file-system state;
    what a run gets from outside (the SalesforceDX client, the
    temp-directory allocator, the archives, the clock, the Node version)
    is read from a [World] record.  The packages the script depends on
    ([diff], [line-number], [line-replace], [sfdx-bulk-helper]) are not
    part of the sources and are modelled from the specification.  Console
    output is not modelled. *)

From Stdlib Require Import Ascii String ZArith Lia.
From stdpp Require Import gmap strings list pretty.

Local Open Scope Z_scope.

(** ** JavaScript values and text primitives *)

Module JS.

(** The values that flow to [process.exit]: numbers, [undefined] and the
    arrays [Promise.all] resolves with. *)
#[warnings="-register-all"] Inductive jsval : Type :=
  | JUndefined
  | JNum (n : Z)
  | JArr (elems : list jsval).

(** A string-valued option as [command-line-args] delivers it: absent
    ([undefined]/[null]) or a string.  Only a non-empty string is truthy. *)
Definition truthy (o : option string) : bool :=
  match o with
  | Some s => negb (String.eqb s "")
  | None => false
  end.

Definition LF : ascii := Ascii.ascii_of_nat 10.

(** White space removed by [String.prototype.trim], restricted to the
    ASCII range: TAB, LF, VT, FF, CR and SPACE. *)
Definition isWhiteSpace (c : ascii) : bool :=
  let n := Ascii.nat_of_ascii c in
  ((9 <=? n)%nat && (n <=? 13)%nat) || (n =? 32)%nat.

Fixpoint trimStart (s : string) : string :=
  match s with
  | String c s' => if isWhiteSpace c then trimStart s' else s
  | EmptyString => EmptyString
  end.

Fixpoint trimEnd (s : string) : string :=
  match s with
  | String c s' =>
      match trimEnd s' with
      | EmptyString => if isWhiteSpace c then EmptyString else String c EmptyString
      | r => String c r
      end
  | EmptyString => EmptyString
  end.

Definition trim (s : string) : string := trimEnd (trimStart s).

(** The lines of a text, the notion of line that the models of the
    [line-number], [line-replace] and [diff] packages share.  A line feed
    terminates a line: a final fragment without line feed is a line of its
    own, a final line feed opens no empty line after it. *)
Fixpoint lines (s : string) : list string :=
  match s with
  | EmptyString => []
  | String c s' =>
      if Ascii.eqb c LF then EmptyString :: lines s'
      else match lines s' with
           | [] => [String c EmptyString]
           | l :: ls => String c l :: ls
           end
  end.

Definition newline : string := String LF EmptyString.

(** Writing lines back, each followed by a line feed. *)
Fixpoint unlines (ls : list string) : string :=
  match ls with
  | [] => EmptyString
  | l :: ls' => l +:+ newline +:+ unlines ls'
  end.

Fixpoint noLF (s : string) : bool :=
  match s with
  | EmptyString => true
  | String c s' => negb (Ascii.eqb c LF) && noLF s'
  end.

(** A UTC calendar instant as a [Date] holds it, with the getters the
    script calls.  [getUTCMonth] counts from zero: January is 0. *)
Record Date : Type :=
  { year : Z; month : Z; day : Z; hours : Z; minutes : Z; seconds : Z }.

Definition getUTCFullYear (d : Date) : Z := year d.
Definition getUTCMonth (d : Date) : Z := month d - 1.
Definition getUTCDate (d : Date) : Z := day d.
Definition getUTCHours (d : Date) : Z := hours d.
Definition getUTCMinutes (d : Date) : Z := minutes d.
Definition getUTCSeconds (d : Date) : Z := seconds d.

(** The ranges of the calendar fields of a [Date]. *)
Definition validDate (d : Date) : Prop :=
  1 <= month d <= 12 /\ 1 <= day d <= 31 /\ 0 <= hours d <= 23 /\
  0 <= minutes d <= 59 /\ 0 <= seconds d <= 59.

(** An integer in a template literal. *)
Definition numToString (n : Z) : string := pretty n.

(** A promise that has settled. *)
Inductive promise (A : Type) : Type :=
  | Resolved (a : A)
  | Rejected (err : string).
Arguments Resolved {A} a.
Arguments Rejected {A} err.

(** [process.exit] as Node implements it.  Up to Node 19 the argument is
    kept as the exit code when it is truthy or zero and is then coerced to
    a 32-bit integer, so an array of several elements (whose string form
    holds commas and is not a number) ends the process with status 0.
    From Node 20 on an argument that is neither [undefined] nor an integer
    is refused with an exception. *)
Inductive runtime : Type := CoercingExit | ValidatingExit.

Definition wrap32 (n : Z) : Z := (n + 2 ^ 31) mod 2 ^ 32 - 2 ^ 31.

(** [ToNumber] on the values of [jsval]; [None] is [NaN]. *)
Fixpoint toNumber (v : jsval) : option Z :=
  match v with
  | JUndefined => None
  | JNum n => Some n
  | JArr [] => Some 0
  | JArr [x] => match x with JUndefined => Some 0 | _ => toNumber x end
  | JArr _ => None
  end.

Definition toInt32 (v : jsval) : Z :=
  match toNumber v with
  | Some n => wrap32 n
  | None => 0
  end.

(** The status the process ends with, or [None] when the call throws. *)
Definition processExit (rt : runtime) (code : jsval) : option Z :=
  match rt with
  | CoercingExit =>
      match code with
      | JUndefined => Some 0
      | _ => Some (toInt32 code)
      end
  | ValidatingExit =>
      match code with
      | JUndefined => Some 0
      | JNum n => Some n
      | JArr _ => None
      end
  end.

End JS.

(** ** The [line-number] package *)

Module LineNumber.
Import JS.

(** Modelled from the spec: an entry of the result of [line-number], the
    matching line and its number. *)
Record LineMatch : Type := { line : string; number : nat }.

(** Modelled from the spec: the scan of [line-number] over the lines, [i]
    lines having been read. *)
Fixpoint scan (re : string -> bool) (ls : list string) (i : nat) : list LineMatch :=
  match ls with
  | [] => []
  | l :: ls' =>
      if re l then {| line := l; number := S i |} :: scan re ls' (S i)
      else scan re ls' (S i)
  end.

(** Modelled from the spec: the [line-number] package is a dependency that
    is not part of the sources.  It scans the text for the lines matching
    the pattern and reports each with its one-based line number. *)
Definition lineNumber (str : string) (re : string -> bool) : list LineMatch :=
  scan re (lines str) 0.

End LineNumber.

(** ** The [line-replace] package and [async-line-remove.js] *)

Module LineReplace.
Import JS.

(** Modelled from the spec: the pass of [line-replace] over the lines,
    [currentLine] lines having been written. *)
Fixpoint rewrite (ls : list string) (currentLine line : nat)
    (text : string) (addNewLine : bool) : string :=
  match ls with
  | [] => EmptyString
  | originalLine :: ls' =>
      let currentLine := S currentLine in
      (if (currentLine =? line)%nat
       then (if addNewLine then text +:+ newline else text)
       else originalLine +:+ newline)
      +:+ rewrite ls' currentLine line text addNewLine
  end.

(** Modelled from the spec: the [line-replace] package is a dependency that
    is not part of the sources.  It rewrites the file line by line, putting
    [text] (followed by a line feed only when [addNewLine] is set) in place
    of line number [line] and writing every other line back followed by a
    line feed. *)
Definition lineReplace (content : string) (line : nat) (text : string)
    (addNewLine : bool) : string :=
  rewrite (lines content) 0 line text addNewLine.

End LineReplace.

(** ** The [diff] package *)

Module Diff.
Import JS.

Inductive tag : Type := Common | Added | Removed.

Definition tag_eqb (a b : tag) : bool :=
  match a, b with
  | Common, Common | Added, Added | Removed, Removed => true
  | _, _ => false
  end.

(** An own property of a change object: missing, present with value
    [undefined], or present with value [true]. *)
Inductive ownProp : Type := NoProp | PropUndefined | PropTrue.

Definition isOwn (p : ownProp) : bool :=
  match p with NoProp => false | _ => true end.

Definition propTruthy (p : ownProp) : bool :=
  match p with PropTrue => true | _ => false end.

(** Modelled from the spec: a segment of the [diff] package, tagged added,
    removed or neither.  As an object it has [value] and [count] always
    and, on an added or removed segment, both flags, the one that does not
    apply holding [undefined]: the script reads [part.added] on every
    segment it reports and prints [REMOVED] when it is not set. *)
Record change : Type :=
  { value : string; count : nat; added : ownProp; removed : ownProp }.

Definition hasOwnProperty (part : change) (key : string) : bool :=
  if String.eqb key "value" then true
  else if String.eqb key "count" then true
  else if String.eqb key "added" then isOwn (added part)
  else if String.eqb key "removed" then isOwn (removed part)
  else false.

Definition edit : Type := tag * string.

(** The lines of a text as the diff compares them. *)
Definition trimmedLines (text : string) : list string := map trim (lines text).

(** The two texts an edit script relates: the old one keeps what is not
    added, the new one what is not removed. *)
Definition oldLines (es : list edit) : list string :=
  map snd (List.filter (fun e => negb (tag_eqb (fst e) Added)) es).

Definition newLines (es : list edit) : list string :=
  map snd (List.filter (fun e => negb (tag_eqb (fst e) Removed)) es).

(** An edit script between two lists of lines, up to trimming. *)
Definition scriptFor (es : list edit) (xs ys : list string) : Prop :=
  map trim (oldLines es) = map trim xs /\ map trim (newLines es) = map trim ys.

Definition cost (es : list edit) : nat :=
  length (List.filter (fun e => negb (tag_eqb (fst e) Common)) es).

(** Modelled from the spec: a shortest edit script between two lists of
    lines compared after trimming.  Equal heads are kept, otherwise the
    cheaper of deleting the old head and inserting the new one is taken,
    deletion first on a tie. *)
Fixpoint editScript (xs ys : list string) : list edit :=
  match xs with
  | [] => map (pair Added) ys
  | x :: xs' =>
      (fix inner (ys : list string) : list edit :=
         match ys with
         | [] => map (pair Removed) xs
         | y :: ys' =>
             if String.eqb (trim x) (trim y)
             then (Common, y) :: editScript xs' ys'
             else
               let del := (Removed, x) :: editScript xs' ys in
               let ins := (Added, y) :: inner ys' in
               if (cost del <=? cost ins)%nat then del else ins
         end) ys
  end.

(** Modelled from the spec: the contiguous segments of an edit script,
    maximal runs of equally tagged edits. *)
Fixpoint group (es : list edit) : list (tag * list string) :=
  match es with
  | [] => []
  | (t, l) :: es' =>
      match group es' with
      | (t', ls) :: gs =>
          if tag_eqb t t' then (t, l :: ls) :: gs
          else (t, [l]) :: (t', ls) :: gs
      | [] => [(t, [l])]
      end
  end.

(** Modelled from the spec: the change object of a segment. *)
Definition toChange (g : tag * list string) : change :=
  let (t, ls) := g in
  {| value := unlines ls;
     count := length ls;
     added := match t with
              | Common => NoProp | Added => PropTrue | Removed => PropUndefined
              end;
     removed := match t with
                | Common => NoProp | Added => PropUndefined | Removed => PropTrue
                end |}.

(** Modelled from the spec: the [diff] package is a dependency that is not
    part of the sources.  [diffTrimmedLines] is a line diff that compares
    the lines after trimming them, follows a shortest edit script, and
    returns the contiguous segments of it, each tagged added, removed or
    neither and carrying the text of its lines. *)
Definition diffTrimmedLines (oldStr newStr : string) : list change :=
  map toChange (group (editScript (lines oldStr) (lines newStr))).

End Diff.

(** ** The parsed command line and the environment of a run *)

Module Env.
Import JS.

(** The object [command-line-args] returns, with the flag [parseError]
    the script sets on it when parsing fails (the message that goes with
    the flag is only printed).  A string option given without a value is
    [null], one that was not given and has no default is [undefined]:
    both are [None]. *)
Record Options : Type :=
  { org1 : option string;
    org2 : option string;
    packagename : option string;
    packagexml : option string;
    save_packagexml : option string;
    save_dir : option string;
    verbose : bool;
    sfdx_verbose : bool;
    help : bool;
    parseError : bool }.

(** What a run gets from outside the script: Node's [path.join] and
    [fs.existsSync], the SalesforceDX client, the [tmp] and [unzip2]
    packages, the outcome of [fs.copyFile], the clock and the Node
    version. *)
Record World : Type :=
  { join : list string -> string;
    existsSync : string -> bool;
    orgConnected : string -> bool;
    tmpDir : nat -> option string;
    retrieve : string -> string -> option string;
    unzip : string -> option (list (string * string));
    copyFails : string -> string -> bool;
    clock : nat -> Date;
    node : runtime }.

(** Asynchronous operations, sequenced over the files on disk. *)
Definition io (A : Type) : Type :=
  gmap string string -> promise A * gmap string string.

Definition resolve {A : Type} (a : A) : io A := fun fs => (Resolved a, fs).
Definition reject {A : Type} (err : string) : io A := fun fs => (Rejected err, fs).

(** [p.then(f)]: the callback runs only when [p] resolves. *)
Definition andThen {A B : Type} (p : io A) (f : A -> io B) : io B :=
  fun fs =>
    match p fs with
    | (Resolved a, fs') => f a fs'
    | (Rejected err, fs') => (Rejected err, fs')
    end.

(** [Promise.all]: every operation of the list has been started, so each
    one runs, in list order here; the result is the list of values, or the
    first rejection. *)
Fixpoint all {A : Type} (ps : list (io A)) : io (list A) :=
  match ps with
  | [] => resolve []
  | p :: ps' =>
      fun fs =>
        match p fs with
        | (r, fs1) =>
            match all ps' fs1 with
            | (rs, fs2) =>
                (match r, rs with
                 | Resolved a, Resolved l => Resolved (a :: l)
                 | Rejected err, _ => Rejected err
                 | Resolved _, Rejected err => Rejected err
                 end, fs2)
            end
        end
  end.

End Env.

(** [p >>> f] is [p.then(f)]. *)
Infix ">>>" := Env.andThen (at level 61, left associativity).

(** ** [utils.js] *)

Module Utils.
Import JS Env.

Definition getPackageXMLPath (w : World) (options : Options) (base : string) : string :=
  if truthy (packagexml options)
  then join w [base; "unpackaged"; "package.xml"]
  else join w [base; "package.xml"].

Definition pad (value : Z) : string :=
  if value <? 10 then "0" +:+ numToString value else numToString value.

(** [getTimestamp], on the instant [new Date()] returned. *)
Definition getTimestamp (d : Date) : string :=
  numToString (getUTCFullYear d) +:+ "-" +:+ pad (getUTCMonth d) +:+ "-" +:+
  pad (getUTCDate d) +:+ "T" +:+ pad (getUTCHours d) +:+ ":" +:+
  pad (getUTCMinutes d) +:+ ":" +:+ pad (getUTCSeconds d) +:+ "Z".

End Utils.

(** ** [async-fs-utils.js] *)

Module AsyncFsUtils.
Import JS Env.

Definition fileExists (path : string) (fs : gmap string string) : bool :=
  bool_decide (is_Some (fs !! path)).

Definition deleteFile (path : string) : io jsval :=
  fun fs =>
    if negb (fileExists path fs) then (Resolved JUndefined, fs)
    else (Resolved JUndefined, delete path fs).

Definition copyFile (w : World) (src dest : string) (force : bool) : io jsval :=
  fun fs =>
    if negb (fileExists src fs) then (Rejected "Source does not exist", fs)
    else if fileExists dest fs && negb force then (Rejected "Destination exists", fs)
    else
      let p := if fileExists dest fs then deleteFile dest else resolve JUndefined in
      andThen p (fun _ fs1 =>
        match fs1 !! src with
        | Some content =>
            if copyFails w src dest
            then (Rejected "Unable to copy source to destination", fs1)
            else (Resolved JUndefined, <[dest := content]> fs1)
        | None => (Rejected "Unable to copy source to destination", fs1)
        end) fs.

(** The number of files a step has written: the paths that hold a file
    after it and held none before. *)
Definition filesWritten (before after : gmap string string) : nat :=
  size (dom after ∖ dom before).

Definition readFile (path : string) : io string :=
  fun fs =>
    match fs !! path with
    | None => (Rejected "Supplied path doesn't exist", fs)
    | Some str => (Resolved str, fs)
    end.

(** The [k]-th call of [createTempDir] in the run. *)
Definition createTempDir (w : World) (k : nat) : io string :=
  fun fs =>
    match tmpDir w k with
    | Some tmppath => (Resolved tmppath, fs)
    | None => (Rejected "tmp.dir failed", fs)
    end.

Definition extractEntry (w : World) (dest : string)
    (fs : gmap string string) (entry : string * string) : gmap string string :=
  <[join w [dest; fst entry] := snd entry]> fs.

Definition unzipFile (w : World) (file dest : string) : io unit :=
  fun fs =>
    match fs !! file with
    | None => (Rejected "unable to open archive", fs)
    | Some bytes =>
        match unzip w bytes with
        | None => (Rejected "invalid archive", fs)
        | Some entries => (Resolved tt, foldl (extractEntry w dest) fs entries)
        end
    end.

End AsyncFsUtils.

(** ** [async-line-remove.js] *)

Module AsyncLineRemove.
Import JS Env.

(** The exported function: line [line] of the file is replaced by the
    empty text, with no line feed added. *)
Definition lineRemove (file : string) (line : nat) : io unit :=
  fun fs =>
    match fs !! file with
    | Some content =>
        (Resolved tt, <[file := LineReplace.lineReplace content line "" false]> fs)
    | None => (Rejected "unable to open file", fs)
    end.

End AsyncLineRemove.

(** ** The [sfdx-bulk-helper] package *)

Module SalesforceDX.
Import JS Env.

(** Modelled from the spec: the [sfdx-bulk-helper] package is a dependency
    that is not part of the sources.  [ensureOrgConnected] succeeds when
    the org is reachable and authenticated and fails otherwise. *)
Definition ensureOrgConnected (w : World) (org : string) : io unit :=
  fun fs =>
    if orgConnected w org then (Resolved tt, fs)
    else (Rejected "org is not connected", fs).

(** Modelled from the spec: the [sfdx-bulk-helper] package is a dependency
    that is not part of the sources.  A retrieval that succeeds leaves the
    archive [unpackaged.zip] in the target directory; one that fails
    reports the message of the tool. *)
Definition executeSFDXCommand (w : World) (org command targetdir : string) : io unit :=
  fun fs =>
    match retrieve w org command with
    | Some bytes => (Resolved tt, <[join w [targetdir; "unpackaged.zip"] := bytes]> fs)
    | None => (Rejected "retrieve failed", fs)
    end.

End SalesforceDX.

(** ** [packagexml-diff.js] *)

Module PackagexmlDiff.
Import JS Env.

Definition DEFAULT_WAIT : Z := 100.

(** A string option inside a template literal. *)
Definition str (o : option string) : string :=
  match o with
  | Some s => s
  | None => "null"
  end.

(** [s === o] for a string literal [s]. *)
Definition isStr (s : string) (o : option string) : bool :=
  match o with
  | Some t => String.eqb s t
  | None => false
  end.

Definition argsValid (w : World) (options : Options) : bool :=
  if parseError options || help options then false
  else if negb (truthy (org1 options)) || negb (truthy (org2 options)) then false
  else if truthy (save_packagexml options)
          && negb (existsb (fun v => isStr v (save_packagexml options))
                     ["diff"; "always"; "never"])
       then false
  else if truthy (save_dir options) && negb (existsSync w (str (save_dir options)))
       then false
  else true.

(** The pattern [/<namespacePrefix>[-_A-Za-z0-9]+<\/namespacePrefix>/]:
    the characters of its class. *)
Definition inClass (c : ascii) : bool :=
  let n := nat_of_ascii c in
  ((n =? 45) || (n =? 95)
   || ((65 <=? n) && (n <=? 90)) || ((97 <=? n) && (n <=? 122))
   || ((48 <=? n) && (n <=? 57)))%nat.

Fixpoint dropPrefix (p s : string) : option string :=
  match p with
  | EmptyString => Some s
  | String a p' =>
      match s with
      | String b s' => if Ascii.eqb a b then dropPrefix p' s' else None
      | EmptyString => None
      end
  end.

Fixpoint dropClass (s : string) : string :=
  match s with
  | String c s' => if inClass c then dropClass s' else s
  | EmptyString => EmptyString
  end.

(** A match starting at the head of [s].  No character of the class opens
    the closing tag, so taking the longest run of class characters loses
    no match. *)
Definition matchHere (s : string) : bool :=
  match dropPrefix "<namespacePrefix>" s with
  | Some (String c r) =>
      inClass c && bool_decide (is_Some (dropPrefix "</namespacePrefix>" (dropClass r)))
  | _ => false
  end.

(** [re.test(s)]: a match starting anywhere in [s]. *)
Fixpoint re (s : string) : bool :=
  matchHere s ||
  match s with
  | String _ s' => re s'
  | EmptyString => false
  end.

Fixpoint allInClass (s : string) : bool :=
  match s with
  | String c s' => inClass c && allInClass s'
  | EmptyString => true
  end.

(** The pattern in the words of the specification: the opening tag, one
    or more alphanumeric, hyphen or underscore characters and the closing
    tag, as a span within the line. *)
Definition markerSpan (l : string) : Prop :=
  exists pre name post,
    l = pre +:+ "<namespacePrefix>" +:+ name +:+ "</namespacePrefix>" +:+ post /\
    name <> EmptyString /\ allInClass name = true.

(** [l[i]] on an array of strings. *)
Definition item (l : list string) (i : nat) : string := nth i l EmptyString.

(** What the detection and the removal make of the text of one manifest:
    the line is removed only when exactly one line matched. *)
Definition stripMarker (content : string) : string :=
  match LineNumber.lineNumber content re with
  | [m] => LineReplace.lineReplace content (LineNumber.number m) "" false
  | _ => content
  end.

(** The number of lines of a text that match the marker pattern. *)
Definition markerLines (content : string) : nat :=
  length (List.filter re (lines content)).

(** The predicate of the filter on the parts of the diff. *)
Definition changedOrAdded (part : Diff.change) : bool :=
  Diff.hasOwnProperty part "changed" || Diff.hasOwnProperty part "added".

Section Run.

Variable w : World.
Variable options : Options.

Definition retrieveArgs : string :=
  (if truthy (packagexml options)
   then "--unpackaged " +:+ str (packagexml options)
   else "--singlepackage --packagenames " +:+ str (packagename options))
  +:+ " --wait " +:+ numToString DEFAULT_WAIT.

Definition retrieveCommand (tmpdir : string) : string :=
  "force:mdapi:retrieve " +:+ retrieveArgs +:+ " --retrievetargetdir " +:+ tmpdir.

Section WithTempDirs.

Variables tmpdir1 tmpdir2 : string.

Definition readPackageXmls : io (list string) :=
  all [AsyncFsUtils.readFile (Utils.getPackageXMLPath w options tmpdir1);
       AsyncFsUtils.readFile (Utils.getPackageXMLPath w options tmpdir2)].

(** The removal pushed for one manifest: only when exactly one line
    matched. *)
Definition removal (tmpdir : string) (lineNoResult : list LineNumber.LineMatch)
    : list (io unit) :=
  match lineNoResult with
  | [m] => [AsyncLineRemove.lineRemove (Utils.getPackageXMLPath w options tmpdir)
              (LineNumber.number m)]
  | _ => []
  end.

Definition detectAndRemove : io (list string) :=
  readPackageXmls >>> (fun fileContents =>
    let lineNoResult1 := LineNumber.lineNumber (item fileContents 0) re in
    let lineNoResult2 := LineNumber.lineNumber (item fileContents 1) re in
    all (removal tmpdir1 lineNoResult1 ++ removal tmpdir2 lineNoResult2))
  >>> (fun _ => readPackageXmls).

Definition inspect : io (list string) :=
  if truthy (packagexml options) then readPackageXmls else detectAndRemove.

Definition filteredChanges (fileContents : list string) : list Diff.change :=
  List.filter changedOrAdded
    (Diff.diffTrimmedLines (item fileContents 0) (item fileContents 1)).

Definition compare (fileContents : list string) : Z :=
  if (length (filteredChanges fileContents) =? 0)%nat then 0 else 1.

Definition saveTriggered (rc : Z) : bool :=
  (truthy (save_packagexml options) && isStr "always" (save_packagexml options))
  || (isStr "diff" (save_packagexml options) && (rc =? 1)).

Definition saveName (k : string) (d : Date) : string :=
  "package-" +:+ k +:+ "-" +:+ Utils.getTimestamp d +:+ ".xml".

(** [path.join] throws when the directory is not a string, before any copy
    is started. *)
Definition save (rc : Z) : io jsval :=
  if saveTriggered rc then
    match save_dir options with
    | Some dir =>
        all [resolve (JNum rc);
             AsyncFsUtils.copyFile w (Utils.getPackageXMLPath w options tmpdir1)
               (join w [dir; saveName "1" (clock w 0)]) false;
             AsyncFsUtils.copyFile w (Utils.getPackageXMLPath w options tmpdir2)
               (join w [dir; saveName "2" (clock w 1)]) false]
        >>> (fun results => resolve (JArr results))
    | None => reject "The path argument must be of type string"
    end
  else resolve (JNum rc).

Definition retrieveMetadata : io (list unit) :=
  all [SalesforceDX.executeSFDXCommand w (str (org1 options)) (retrieveCommand tmpdir1) tmpdir1;
       SalesforceDX.executeSFDXCommand w (str (org2 options)) (retrieveCommand tmpdir2) tmpdir2].

Definition unzipMetadata : io (list unit) :=
  all [AsyncFsUtils.unzipFile w (join w [tmpdir1; "unpackaged.zip"]) tmpdir1;
       AsyncFsUtils.unzipFile w (join w [tmpdir2; "unpackaged.zip"]) tmpdir2].

(** The chain from the retrieval to the texts that are compared. *)
Definition manifests : io (list string) :=
  retrieveMetadata >>> (fun _ => unzipMetadata) >>> (fun _ => inspect).

Definition afterTempDirs : io jsval :=
  manifests >>> (fun fileContents => resolve (compare fileContents)) >>> save.

End WithTempDirs.

Definition ensureOrgs : io (list unit) :=
  all [SalesforceDX.ensureOrgConnected w (str (org1 options));
       SalesforceDX.ensureOrgConnected w (str (org2 options))].

Definition createTempDirs : io (list string) :=
  all [AsyncFsUtils.createTempDir w 0; AsyncFsUtils.createTempDir w 1].

(** The promise chain up to the value handed to the last [then]. *)
Definition pipeline : io jsval :=
  ensureOrgs >>> (fun _ => createTempDirs)
  >>> (fun tempdirs => afterTempDirs (item tempdirs 0) (item tempdirs 1)).

(** The exit status of the run and the files it leaves.  Invalid
    arguments end in [process.exit(0)]; the last [then] hands its value to
    [process.exit]; a rejection anywhere, also an exception thrown by that
    call, reaches the [catch] and [process.exit(1)]. *)
Definition run (fs : gmap string string) : Z * gmap string string :=
  if negb (argsValid w options) then (0, fs)
  else
    match pipeline fs with
    | (Resolved rc, fs') =>
        match processExit (node w) rc with
        | Some status => (status, fs')
        | None => (1, fs')
        end
    | (Rejected _, fs') => (1, fs')
    end.

End Run.

End PackagexmlDiff.

(** ** The timestamp format of the saved copies *)

Module TimestampFormat.
Import JS.

Definition digit (n : Z) : ascii := ascii_of_nat (48 + Z.to_nat n).

(** Two decimal digits, zero-padded. *)
Definition twoDigits (n : Z) : string :=
  String (digit (n / 10)) (String (digit (n mod 10)) EmptyString).

Definition fourDigits (n : Z) : string :=
  String (digit (n / 1000)) (String (digit (n / 100 mod 10)) (twoDigits (n mod 100))).

(** The format [YYYY-MM-DDTHH:MM:SSZ] in the words of the specification,
    the month field holding the calendar month less one. *)
Definition stamp (d : Date) : string :=
  fourDigits (year d) +:+ "-" +:+ twoDigits (month d - 1) +:+ "-" +:+
  twoDigits (day d) +:+ "T" +:+ twoDigits (hours d) +:+ ":" +:+
  twoDigits (minutes d) +:+ ":" +:+ twoDigits (seconds d) +:+ "Z".

End TimestampFormat.

(** ** Sample runs *)

Module Examples.
Import JS Env.

(** [path.join] on segments that need no normalisation. *)
Definition slashJoin (parts : list string) : string :=
  match parts with
  | [] => "."
  | p :: ps => foldl (fun acc q => acc +:+ "/" +:+ q) p ps
  end.

Definition instant : Date :=
  {| year := 2018; month := 5; day := 3; hours := 14; minutes := 0; seconds := 59 |}.

(** Both orgs connected, the archive of an org holding its manifest under
    the name [entry]; the manifests are [m1] for org [one] and [m2] for
    org [two]. *)
Definition worldWith (entry m1 m2 : string) (rt : runtime) : World :=
  {| join := slashJoin;
     existsSync := fun _ => true;
     orgConnected := fun _ => true;
     tmpDir := fun k => Some (if (k =? 0)%nat then "/tmp/1" else "/tmp/2");
     retrieve := fun org _ => Some (if String.eqb org "one" then m1 else m2);
     unzip := fun bytes => Some [(entry, bytes)];
     copyFails := fun _ _ => false;
     clock := fun _ => instant;
     node := rt |}.

Definition world : string -> string -> runtime -> World := worldWith "package.xml".

(** [--org1 one --org2 two --save-packagexml <policy> --save-dir /out]. *)
Definition options (policy : string) : Options :=
  {| org1 := Some "one"; org2 := Some "two";
     packagename := Some "becem"; packagexml := None;
     save_packagexml := Some policy; save_dir := Some "/out";
     verbose := false; sfdx_verbose := false; help := false; parseError := false |}.

(** [--org1 one --org2 two --packagexml /src/package.xml]. *)
Definition optionsWithManifest : Options :=
  {| org1 := Some "one"; org2 := Some "two";
     packagename := Some "becem"; packagexml := Some "/src/package.xml";
     save_packagexml := Some "never"; save_dir := Some "/out";
     verbose := false; sfdx_verbose := false; help := false; parseError := false |}.

(** The same command line without [--org2]. *)
Definition optionsWithoutOrg2 : Options :=
  {| org1 := Some "one"; org2 := None;
     packagename := Some "becem"; packagexml := None;
     save_packagexml := Some "never"; save_dir := Some "/out";
     verbose := false; sfdx_verbose := false; help := false; parseError := false |}.

Definition manifestNs1 : string :=
  "<a/>
<namespacePrefix>ns1</namespacePrefix>
<b/>".

Definition manifestNs2 : string :=
  "<a/>
<namespacePrefix>ns2</namespacePrefix>
<b/>".

Definition manifestNs2c : string :=
  "<a/>
<namespacePrefix>ns2</namespacePrefix>
<c/>".

Definition manifestTwoMarkers : string :=
  "<namespacePrefix>ns1</namespacePrefix>
<namespacePrefix>ns2</namespacePrefix>
".

(** Two manifests on disk and the two copies of an earlier save. *)
Definition diskWithCopies : gmap string string :=
  <["/out/package-2-2018-04-03T14:00:59Z.xml" := "<old/>"]>
    (<["/out/package-1-2018-04-03T14:00:59Z.xml" := "<old/>"]>
       (<["/tmp/2/package.xml" := "<a/>"]> (<["/tmp/1/package.xml" := "<a/>"]> ∅))).

Definition diskWithManifests : gmap string string :=
  <["/tmp/2/package.xml" := "<b/>"]> (<["/tmp/1/package.xml" := "<a/>"]> ∅).

End Examples.

(** ** Relations between the disk before and after an operation *)

Module Invariants.
Import JS Env.

(** The operation [p] keeps the relation [R]: whatever its outcome, the
    disk after it is related to the disk before. *)
Definition keeps (R : gmap string string -> gmap string string -> Prop)
    {A : Type} (p : io A) : Prop :=
  forall fs, R fs (snd (p fs)).

(** No file has been removed. *)
Definition noneRemoved (before after : gmap string string) : Prop :=
  dom before ⊆ dom after.

(** The file [path] is as it was. *)
Definition sameAt (path : string) (before after : gmap string string) : Prop :=
  after !! path = before !! path.

End Invariants.

(** ** Further sample data *)

Module MoreExamples.
Import JS Env.

(** One manifest and a file of the same content under another name. *)
Definition diskWithTarget : gmap string string :=
  <["/out/copy.xml" := "<old/>"]> (<["/tmp/1/package.xml" := "<a/>"]> ∅).

(** An archive with two entries, stored as [/tmp/1/unpackaged.zip]. *)
Definition archiveWorld : World :=
  {| join := Examples.slashJoin;
     existsSync := fun _ => true;
     orgConnected := fun org => String.eqb org "one";
     tmpDir := fun k => Some (if (k =? 0)%nat then "/tmp/1" else "/tmp/2");
     retrieve := fun _ _ => Some "PK";
     unzip := fun bytes =>
       if String.eqb bytes "PK"
       then Some [("package.xml", "<a/>"); ("classes/A.cls", "class A {}")]
       else None;
     copyFails := fun _ _ => false;
     clock := fun _ => Examples.instant;
     node := CoercingExit |}.


Definition laterInstant : Date :=
  {| year := 2018; month := 5; day := 3; hours := 14; minutes := 1; seconds := 0 |}.

End MoreExamples.

(** * Properties *)

Import JS Env.

(** ** Lines of a text *)

Lemma lines_cons_line (l rest : string) :
  noLF l = true -> lines (l +:+ String LF rest) = l :: lines rest.
Proof.
  induction l as [|c l IH]; cbn [noLF]; intros H.
  - reflexivity.
  - apply andb_prop in H as [Hc Hl].
    change (String c l +:+ String LF rest) with (String c (l +:+ String LF rest)).
    cbn [lines]. destruct (Ascii.eqb c LF); [discriminate|].
    rewrite (IH Hl). reflexivity.
Qed.

Lemma lines_unlines (ls : list string) :
  Forall (fun l => noLF l = true) ls -> lines (unlines ls) = ls.
Proof.
  induction 1 as [|l ls Hl _ IH]; simpl.
  - reflexivity.
  - change (lines (l +:+ String LF (unlines ls)) = l :: ls).
    rewrite lines_cons_line by assumption. now rewrite IH.
Qed.

Lemma lines_noLF (s : string) : Forall (fun l => noLF l = true) (lines s).
Proof.
  induction s as [|c s IH]; simpl.
  - constructor.
  - destruct (Ascii.eqb c LF) eqn:E.
    + constructor; [reflexivity | assumption].
    + destruct (lines s) as [|l ls].
      * repeat constructor. simpl. now rewrite E.
      * inversion IH; subst. constructor; [|assumption].
        simpl. now rewrite E.
Qed.

Lemma append_assoc (a b c : string) : (a +:+ b) +:+ c = a +:+ (b +:+ c).
Proof.
  induction a as [|x a IH]; [reflexivity|].
  change (String x ((a +:+ b) +:+ c) = String x (a +:+ b +:+ c)).
  now rewrite IH.
Qed.

Lemma unlines_app (xs ys : list string) :
  unlines (xs ++ ys) = unlines xs +:+ unlines ys.
Proof.
  induction xs as [|x xs IH]; simpl.
  - reflexivity.
  - rewrite IH. now rewrite !append_assoc.
Qed.

(** ** The marker pattern *)

Lemma dropPrefix_app (p r : string) : PackagexmlDiff.dropPrefix p (p +:+ r) = Some r.
Proof.
  induction p as [|a p IH]; [reflexivity|].
  change (String a p +:+ r) with (String a (p +:+ r)).
  cbn [PackagexmlDiff.dropPrefix]. now rewrite Ascii.eqb_refl.
Qed.

Lemma dropPrefix_inv (p s r : string) :
  PackagexmlDiff.dropPrefix p s = Some r -> s = p +:+ r.
Proof.
  revert s. induction p as [|a p IH]; intros s; cbn [PackagexmlDiff.dropPrefix].
  - now intros [= ->].
  - destruct s as [|b s]; [discriminate|].
    destruct (Ascii.eqb_spec a b) as [->|]; [|discriminate].
    intros H. apply IH in H. now rewrite H.
Qed.

Lemma dropClass_split (s : string) :
  exists name, s = name +:+ PackagexmlDiff.dropClass s /\
               PackagexmlDiff.allInClass name = true.
Proof.
  induction s as [|c s (name & E & Hn)]; cbn [PackagexmlDiff.dropClass].
  - now exists EmptyString.
  - destruct (PackagexmlDiff.inClass c) eqn:Hc.
    + exists (String c name). split.
      * change (String c name +:+ PackagexmlDiff.dropClass s)
          with (String c (name +:+ PackagexmlDiff.dropClass s)).
        now rewrite <- E.
      * cbn [PackagexmlDiff.allInClass]. now rewrite Hc.
    + now exists EmptyString.
Qed.

Lemma dropClass_app (name rest : string) :
  PackagexmlDiff.allInClass name = true ->
  PackagexmlDiff.dropClass (name +:+ rest) = PackagexmlDiff.dropClass rest.
Proof.
  induction name as [|c name IH]; cbn [PackagexmlDiff.allInClass]; [reflexivity|].
  intros H. apply andb_prop in H as [Hc Hn].
  change (String c name +:+ rest) with (String c (name +:+ rest)).
  cbn [PackagexmlDiff.dropClass]. rewrite Hc. now apply IH.
Qed.

Lemma matchHere_spec (s : string) :
  PackagexmlDiff.matchHere s = true <->
  exists name post,
    s = "<namespacePrefix>" +:+ name +:+ "</namespacePrefix>" +:+ post /\
    name <> EmptyString /\ PackagexmlDiff.allInClass name = true.
Proof.
  unfold PackagexmlDiff.matchHere. split.
  - destruct (PackagexmlDiff.dropPrefix "<namespacePrefix>" s) as [[|c r]|] eqn:E;
      try discriminate.
    intros H. apply andb_prop in H as [Hc Hp].
    apply bool_decide_eq_true in Hp as [post Hp].
    apply dropPrefix_inv in E. apply dropPrefix_inv in Hp.
    destruct (dropClass_split r) as (name & Er & Hn).
    exists (String c name), post. split; [|split].
    + rewrite E. f_equal.
      change (String c name +:+ "</namespacePrefix>" +:+ post)
        with (String c (name +:+ "</namespacePrefix>" +:+ post)).
      f_equal. now rewrite <- Hp.
    + discriminate.
    + cbn [PackagexmlDiff.allInClass]. now rewrite Hc.
  - intros (name & post & -> & Hne & Hn).
    rewrite dropPrefix_app.
    destruct name as [|c name]; [contradiction|].
    cbn [PackagexmlDiff.allInClass] in Hn. apply andb_prop in Hn as [Hc Hn].
    change (String c name +:+ "</namespacePrefix>" +:+ post)
      with (String c (name +:+ "</namespacePrefix>" +:+ post)).
    cbv iota beta. rewrite Hc. cbn [andb]. apply bool_decide_eq_true.
    rewrite dropClass_app by assumption.
    change (PackagexmlDiff.dropClass ("</namespacePrefix>" +:+ post))
      with ("</namespacePrefix>" +:+ post).
    rewrite dropPrefix_app. now eexists.
Qed.

(** The test of the script accepts exactly the lines that hold a span of
    the shape the specification describes. *)
Lemma re_spec (l : string) :
  PackagexmlDiff.re l = true <-> PackagexmlDiff.markerSpan l.
Proof.
  unfold PackagexmlDiff.markerSpan. split.
  - induction l as [|a l IH]; cbn [PackagexmlDiff.re]; intros H.
    + rewrite orb_false_r in H. apply matchHere_spec in H as (name & post & E & Hn).
      now exists EmptyString, name, post.
    + apply orb_prop in H as [H|H].
      * apply matchHere_spec in H as (name & post & E & Hn).
        now exists EmptyString, name, post.
      * destruct (IH H) as (pre & name & post & -> & Hn).
        now exists (String a pre), name, post.
  - intros (pre & name & post & -> & Hn).
    induction pre as [|a pre IH].
    + assert (PackagexmlDiff.matchHere
                ("<namespacePrefix>" +:+ name +:+ "</namespacePrefix>" +:+ post) = true) as M
          by (apply matchHere_spec; now exists name, post).
      change (EmptyString +:+ "<namespacePrefix>" +:+ name +:+ "</namespacePrefix>" +:+ post)
        with ("<namespacePrefix>" +:+ name +:+ "</namespacePrefix>" +:+ post).
      destruct ("<namespacePrefix>" +:+ name +:+ "</namespacePrefix>" +:+ post) eqn:E;
        cbn [PackagexmlDiff.re]; now rewrite M.
    + change (String a pre +:+ "<namespacePrefix>" +:+ name +:+ "</namespacePrefix>" +:+ post)
        with (String a (pre +:+ "<namespacePrefix>" +:+ name +:+ "</namespacePrefix>" +:+ post)).
      cbn [PackagexmlDiff.re]. rewrite IH. apply orb_true_r.
Qed.

(** ** Detection and removal of the marker line *)

Section Scan.

Variable test : string -> bool.

Lemma scan_length (ls : list string) (i : nat) :
  length (LineNumber.scan test ls i) = length (List.filter test ls).
Proof.
  revert i. induction ls as [|l ls IH]; intros i; simpl.
  - reflexivity.
  - destruct (test l); simpl; now rewrite IH.
Qed.

Lemma scan_nil (ls : list string) (i : nat) :
  List.filter test ls = [] -> LineNumber.scan test ls i = [].
Proof.
  intros H. apply length_zero_iff_nil. rewrite scan_length, H. reflexivity.
Qed.

Lemma scan_single (ls : list string) (i : nat) (m : LineNumber.LineMatch) :
  LineNumber.scan test ls i = [m] ->
  exists before after,
    ls = before ++ LineNumber.line m :: after /\
    test (LineNumber.line m) = true /\
    List.filter test before = [] /\ List.filter test after = [] /\
    LineNumber.number m = S (i + length before).
Proof.
  revert i. induction ls as [|l ls IH]; intros i; simpl.
  - discriminate.
  - destruct (test l) eqn:E.
    + intros H. injection H as Hm Hrest. subst m. simpl.
      exists [], ls. simpl. repeat split; try assumption.
      * apply length_zero_iff_nil.
        rewrite <- scan_length with (i := S i), Hrest. reflexivity.
      * f_equal. lia.
    + intros H. destruct (IH _ H) as (before & after & -> & Ht & Hb & Ha & Hn).
      exists (l :: before), after. simpl. rewrite E.
      repeat split; try assumption. rewrite Hn. f_equal. lia.
Qed.

End Scan.

Lemma rewrite_past (ls : list string) (cur line : nat) (text : string) (b : bool) :
  (line <= cur)%nat -> LineReplace.rewrite ls cur line text b = unlines ls.
Proof.
  revert cur. induction ls as [|l ls IH]; intros cur H;
    cbn [LineReplace.rewrite unlines].
  - reflexivity.
  - destruct (Nat.eqb_spec (S cur) line); [lia|].
    rewrite IH by lia. now rewrite append_assoc.
Qed.

Lemma rewrite_remove (before after : list string) (l : string) (cur : nat) :
  LineReplace.rewrite (before ++ l :: after) cur (S (cur + length before)) "" false
  = unlines (before ++ after).
Proof.
  revert cur. induction before as [|x before IH]; intros cur;
    cbn [app length LineReplace.rewrite unlines].
  - rewrite Nat.add_0_r, Nat.eqb_refl. cbn [String.append]. apply rewrite_past. lia.
  - destruct (Nat.eqb_spec (S cur) (S (cur + S (length before)))); [lia|].
    replace (S (cur + S (length before))) with (S (S cur + length before)) by lia.
    rewrite IH. now rewrite append_assoc.
Qed.

Lemma filter_app_nil {A} (f : A -> bool) (xs ys : list A) :
  List.filter f xs = [] -> List.filter f ys = [] -> List.filter f (xs ++ ys) = [].
Proof. intros Hx Hy. now rewrite List.filter_app, Hx, Hy. Qed.

(** The shape of a text with exactly one marker line, and what the strip
    makes of it. *)
Lemma stripMarker_single (content : string) :
  PackagexmlDiff.markerLines content = 1%nat ->
  exists before l after,
    lines content = before ++ l :: after /\
    PackagexmlDiff.re l = true /\
    List.filter PackagexmlDiff.re (before ++ after) = [] /\
    PackagexmlDiff.stripMarker content = unlines (before ++ after).
Proof.
  unfold PackagexmlDiff.markerLines, PackagexmlDiff.stripMarker, LineNumber.lineNumber.
  intros H. rewrite <- scan_length with (i := 0%nat) in H.
  destruct (LineNumber.scan PackagexmlDiff.re (lines content) 0) as [|m [|m' ms]] eqn:E;
    try discriminate.
  destruct (scan_single _ _ _ _ E) as (before & after & Hls & Ht & Hb & Ha & Hn).
  exists before, (LineNumber.line m), after.
  repeat split; try assumption.
  - now apply filter_app_nil.
  - unfold LineReplace.lineReplace. rewrite Hls, Hn. simpl. apply rewrite_remove.
Qed.

Lemma stripMarker_other (content : string) :
  PackagexmlDiff.markerLines content <> 1%nat ->
  PackagexmlDiff.stripMarker content = content.
Proof.
  unfold PackagexmlDiff.markerLines, PackagexmlDiff.stripMarker, LineNumber.lineNumber.
  intros H. rewrite <- scan_length with (i := 0%nat) in H.
  destruct (LineNumber.scan PackagexmlDiff.re (lines content) 0) as [|m [|m' ms]];
    try reflexivity.
  now contradiction H.
Qed.

Lemma Forall_noLF_remove (before after : list string) (l : string) :
  Forall (fun x => noLF x = true) (before ++ l :: after) ->
  Forall (fun x => noLF x = true) (before ++ after).
Proof.
  rewrite !Forall_app. intros [Hb Ha]. split; [assumption|].
  now inversion Ha.
Qed.

(** ** The line diff *)

Lemma editScript_nil_r (xs : list string) :
  Diff.editScript xs [] = map (pair Diff.Removed) xs.
Proof. destruct xs; reflexivity. Qed.

Lemma editScript_cons (x y : string) (xs ys : list string) :
  Diff.editScript (x :: xs) (y :: ys) =
  if String.eqb (trim x) (trim y)
  then (Diff.Common, y) :: Diff.editScript xs ys
  else
    let del := (Diff.Removed, x) :: Diff.editScript xs (y :: ys) in
    let ins := (Diff.Added, y) :: Diff.editScript (x :: xs) ys in
    if (Diff.cost del <=? Diff.cost ins)%nat then del else ins.
Proof. reflexivity. Qed.

(** An induction principle that follows the recursion of [editScript]. *)
Lemma editScript_ind (P : list string -> list string -> Prop) :
  (forall ys, P [] ys) ->
  (forall x xs, P (x :: xs) []) ->
  (forall x xs y ys,
      P xs ys -> P xs (y :: ys) -> P (x :: xs) ys -> P (x :: xs) (y :: ys)) ->
  forall xs ys, P xs ys.
Proof.
  intros Hnil Hr Hstep.
  induction xs as [|x xs IHx]; [exact Hnil|].
  induction ys as [|y ys IHy]; [apply Hr|].
  apply Hstep; [apply IHx | apply IHx | exact IHy].
Qed.

Lemma newLines_cons (t : Diff.tag) (l : string) (es : list Diff.edit) :
  Diff.newLines ((t, l) :: es) =
  match t with Diff.Removed => Diff.newLines es | _ => l :: Diff.newLines es end.
Proof. destruct t; reflexivity. Qed.

Lemma oldLines_cons (t : Diff.tag) (l : string) (es : list Diff.edit) :
  Diff.oldLines ((t, l) :: es) =
  match t with Diff.Added => Diff.oldLines es | _ => l :: Diff.oldLines es end.
Proof. destruct t; reflexivity. Qed.

Lemma newLines_added (ys : list string) : Diff.newLines (map (pair Diff.Added) ys) = ys.
Proof.
  induction ys as [|y ys IH]; [reflexivity|].
  cbn [map]. rewrite newLines_cons. now rewrite IH.
Qed.

Lemma newLines_removed (xs : list string) : Diff.newLines (map (pair Diff.Removed) xs) = [].
Proof.
  induction xs as [|x xs IH]; [reflexivity|].
  cbn [map]. now rewrite newLines_cons.
Qed.

Lemma oldLines_added (ys : list string) : Diff.oldLines (map (pair Diff.Added) ys) = [].
Proof.
  induction ys as [|y ys IH]; [reflexivity|].
  cbn [map]. now rewrite oldLines_cons.
Qed.

Lemma oldLines_removed (xs : list string) : Diff.oldLines (map (pair Diff.Removed) xs) = xs.
Proof.
  induction xs as [|x xs IH]; [reflexivity|].
  cbn [map]. rewrite oldLines_cons. now rewrite IH.
Qed.

Lemma editScript_new (xs ys : list string) :
  Diff.newLines (Diff.editScript xs ys) = ys.
Proof.
  revert xs ys. apply editScript_ind.
  - intros ys. apply newLines_added.
  - intros x xs. rewrite editScript_nil_r. apply newLines_removed.
  - intros x xs y ys H1 H2 H3. rewrite editScript_cons.
    destruct (String.eqb (trim x) (trim y)).
    + rewrite newLines_cons. now rewrite H1.
    + cbv zeta. destruct (_ <=? _)%nat; rewrite newLines_cons.
      * exact H2.
      * now rewrite H3.
Qed.

Lemma editScript_old (xs ys : list string) :
  map trim (Diff.oldLines (Diff.editScript xs ys)) = map trim xs.
Proof.
  revert xs ys. apply editScript_ind.
  - intros ys. change (Diff.editScript [] ys) with (map (pair Diff.Added) ys).
    now rewrite oldLines_added.
  - intros x xs. rewrite editScript_nil_r. now rewrite oldLines_removed.
  - intros x xs y ys H1 H2 H3. rewrite editScript_cons.
    destruct (String.eqb_spec (trim x) (trim y)) as [E|E].
    + rewrite oldLines_cons. cbn [map]. now rewrite H1, E.
    + cbv zeta. destruct (_ <=? _)%nat; rewrite oldLines_cons.
      * cbn [map]. now rewrite H2.
      * exact H3.
Qed.

Lemma cost_zero_sides (es : list Diff.edit) :
  Diff.cost es = 0%nat -> Diff.oldLines es = Diff.newLines es.
Proof.
  unfold Diff.cost, Diff.oldLines, Diff.newLines.
  induction es as [|[t l] es IH]; [reflexivity|].
  simpl. destruct t; simpl; try discriminate.
  intros H. f_equal. exact (IH H).
Qed.

Lemma editScript_equal (xs ys : list string) :
  map trim xs = map trim ys -> Diff.editScript xs ys = map (pair Diff.Common) ys.
Proof.
  revert ys. induction xs as [|x xs IH]; intros [|y ys] H; try discriminate.
  - reflexivity.
  - injection H as Hh Ht. rewrite editScript_cons, Hh, String.eqb_refl.
    cbn [map]. f_equal. now apply IH.
Qed.

Lemma cost_common (ys : list string) : Diff.cost (map (pair Diff.Common) ys) = 0%nat.
Proof. unfold Diff.cost. induction ys as [|y ys IH]; [reflexivity|exact IH]. Qed.

(** The edit script has no insertion and no deletion exactly when the two
    lists of lines agree after trimming. *)
Lemma editScript_cost_zero (xs ys : list string) :
  Diff.cost (Diff.editScript xs ys) = 0%nat <-> map trim xs = map trim ys.
Proof.
  split.
  - intros H. rewrite <- (editScript_old xs ys), (cost_zero_sides _ H).
    now rewrite editScript_new.
  - intros H. rewrite (editScript_equal _ _ H). apply cost_common.
Qed.

Lemma changedOrAdded_toChange (t : Diff.tag) (ls : list string) :
  PackagexmlDiff.changedOrAdded (Diff.toChange (t, ls)) = negb (Diff.tag_eqb t Diff.Common).
Proof. destruct t; reflexivity. Qed.

Lemma group_changedOrAdded (es : list Diff.edit) :
  List.filter PackagexmlDiff.changedOrAdded (map Diff.toChange (Diff.group es)) = [] <-> Diff.cost es = 0%nat.
Proof.
  unfold Diff.cost.
  induction es as [|[t l] es IH]; [simpl; tauto|].
  cbn [Diff.group]. destruct (Diff.group es) as [|[t' ls] gs] eqn:G.
  - simpl in IH. cbn [map List.filter fst]. rewrite changedOrAdded_toChange.
    destruct t; simpl; split; try discriminate; try tauto;
      intros _; now apply IH.
  - destruct (Diff.tag_eqb t t') eqn:E.
    + assert (t = t') as -> by (destruct t, t'; (discriminate || reflexivity)).
      cbn [map List.filter fst] in *. rewrite changedOrAdded_toChange in *.
      destruct t'; simpl in *; split; try discriminate; apply IH.
    + cbn [map List.filter fst] in *. rewrite !changedOrAdded_toChange in *.
      destruct t; simpl in *; split; try discriminate.
      * destruct t'; simpl in *; try discriminate. 
      * destruct t'; simpl in *; try discriminate; intros H; now apply IH in H.
Qed.

(** The filtered parts are empty exactly when the two texts have the same
    lines after trimming. *)
Lemma filteredChanges_nil_iff (c1 c2 : string) :
  PackagexmlDiff.filteredChanges [c1; c2] = [] <->
  Diff.trimmedLines c1 = Diff.trimmedLines c2.
Proof.
  unfold PackagexmlDiff.filteredChanges, Diff.diffTrimmedLines, PackagexmlDiff.item.
  cbn [nth]. rewrite group_changedOrAdded. apply editScript_cost_zero.
Qed.

Lemma compare_equal (c1 c2 : string) :
  Diff.trimmedLines c1 = Diff.trimmedLines c2 -> PackagexmlDiff.compare [c1; c2] = 0.
Proof.
  intros H. apply filteredChanges_nil_iff in H.
  unfold PackagexmlDiff.compare. now rewrite H.
Qed.

Lemma compare_different (c1 c2 : string) :
  Diff.trimmedLines c1 <> Diff.trimmedLines c2 -> PackagexmlDiff.compare [c1; c2] = 1.
Proof.
  intros H. unfold PackagexmlDiff.compare.
  destruct (PackagexmlDiff.filteredChanges [c1; c2]) eqn:E; [|reflexivity].
  apply filteredChanges_nil_iff in E. contradiction.
Qed.

Lemma compare_range (contents : list string) :
  PackagexmlDiff.compare contents = 0 \/ PackagexmlDiff.compare contents = 1.
Proof.
  unfold PackagexmlDiff.compare. destruct (_ =? _)%nat; auto.
Qed.

(** The script of [editScript] is a shortest one. *)

Lemma cost_cons (t : Diff.tag) (l : string) (es : list Diff.edit) :
  Diff.cost ((t, l) :: es) =
  match t with Diff.Common => Diff.cost es | _ => S (Diff.cost es) end.
Proof. destruct t; reflexivity. Qed.

Lemma cost_added (ys : list string) : Diff.cost (map (pair Diff.Added) ys) = length ys.
Proof.
  induction ys as [|y ys IH]; [reflexivity|]. cbn [map]. now rewrite cost_cons, IH.
Qed.

Lemma cost_removed (xs : list string) : Diff.cost (map (pair Diff.Removed) xs) = length xs.
Proof.
  induction xs as [|x xs IH]; [reflexivity|]. cbn [map]. now rewrite cost_cons, IH.
Qed.

Lemma editScript_scriptFor (xs ys : list string) :
  Diff.scriptFor (Diff.editScript xs ys) xs ys.
Proof. split; [apply editScript_old | now rewrite editScript_new]. Qed.

(** A script that produces no old line consists of additions. *)
Lemma cost_no_old (es : list Diff.edit) (ys : list string) :
  Diff.scriptFor es [] ys -> (length ys <= Diff.cost es)%nat.
Proof.
  intros [Ho Hn]. apply (f_equal (@length string)) in Hn. rewrite !length_map in Hn.
  rewrite <- Hn. clear Hn. apply map_eq_nil in Ho.
  induction es as [|[t l] es IH]; [reflexivity|].
  rewrite oldLines_cons in Ho. rewrite newLines_cons, cost_cons.
  destruct t; try discriminate. cbn [length]. apply le_n_S. now apply IH.
Qed.

Lemma cost_no_new (es : list Diff.edit) (xs : list string) :
  Diff.scriptFor es xs [] -> (length xs <= Diff.cost es)%nat.
Proof.
  intros [Ho Hn]. apply (f_equal (@length string)) in Ho. rewrite !length_map in Ho.
  rewrite <- Ho. clear Ho. apply map_eq_nil in Hn.
  induction es as [|[t l] es IH]; [reflexivity|].
  rewrite newLines_cons in Hn. rewrite oldLines_cons, cost_cons.
  destruct t; try discriminate. cbn [length]. apply le_n_S. now apply IH.
Qed.

(** Dropping the first line of the new text costs at most one edit more. *)
Lemma script_drop_new (es : list Diff.edit) (xs ys : list string) (y : string) :
  Diff.scriptFor es xs (y :: ys) ->
  exists es', Diff.scriptFor es' xs ys /\ (Diff.cost es' <= S (Diff.cost es))%nat.
Proof.
  revert xs. induction es as [|[t l] es IH]; intros xs [Ho Hn].
  - discriminate.
  - rewrite oldLines_cons in Ho. rewrite newLines_cons in Hn. destruct t.
    + exists ((Diff.Removed, l) :: es). cbn [map] in Hn. injection Hn as _ Hn.
      split; [split|].
      * now rewrite oldLines_cons.
      * now rewrite newLines_cons.
      * rewrite !cost_cons. lia.
    + exists es. cbn [map] in Hn. injection Hn as _ Hn.
      split; [now split|]. rewrite cost_cons. lia.
    + destruct xs as [|x xs]; [discriminate|].
      cbn [map] in Ho. injection Ho as Hl Ho.
      destruct (IH xs (conj Ho Hn)) as (es' & [Ho' Hn'] & Hc).
      exists ((Diff.Removed, l) :: es'). split; [split|].
      * rewrite oldLines_cons. cbn [map]. now rewrite Hl, Ho'.
      * now rewrite newLines_cons.
      * rewrite !cost_cons. lia.
Qed.

Lemma script_drop_old (es : list Diff.edit) (xs ys : list string) (x : string) :
  Diff.scriptFor es (x :: xs) ys ->
  exists es', Diff.scriptFor es' xs ys /\ (Diff.cost es' <= S (Diff.cost es))%nat.
Proof.
  revert ys. induction es as [|[t l] es IH]; intros ys [Ho Hn].
  - discriminate.
  - rewrite oldLines_cons in Ho. rewrite newLines_cons in Hn. destruct t.
    + exists ((Diff.Added, l) :: es). cbn [map] in Ho. injection Ho as _ Ho.
      split; [split|].
      * now rewrite oldLines_cons.
      * now rewrite newLines_cons.
      * rewrite !cost_cons. lia.
    + destruct ys as [|y ys]; [discriminate|].
      cbn [map] in Hn. injection Hn as Hl Hn.
      destruct (IH ys (conj Ho Hn)) as (es' & [Ho' Hn'] & Hc).
      exists ((Diff.Added, l) :: es'). split; [split|].
      * now rewrite oldLines_cons.
      * rewrite newLines_cons. cbn [map]. now rewrite Hl, Hn'.
      * rewrite !cost_cons. lia.
    + exists es. cbn [map] in Ho. injection Ho as _ Ho.
      split; [now split|]. rewrite cost_cons. lia.
Qed.

Lemma editScript_shortest (xs ys : list string) (es : list Diff.edit) :
  Diff.scriptFor es xs ys -> (Diff.cost (Diff.editScript xs ys) <= Diff.cost es)%nat.
Proof.
  revert es. revert xs ys. apply (editScript_ind
    (fun xs ys => forall es, Diff.scriptFor es xs ys ->
       (Diff.cost (Diff.editScript xs ys) <= Diff.cost es)%nat)).
  - intros ys es H. change (Diff.editScript [] ys) with (map (pair Diff.Added) ys).
    rewrite cost_added. now apply cost_no_old.
  - intros x xs es H. rewrite editScript_nil_r, cost_removed. now apply cost_no_new.
  - intros x xs y ys IH1 IH2 IH3 es H. rewrite editScript_cons.
    destruct (String.eqb_spec (trim x) (trim y)) as [E|E].
    + rewrite cost_cons. destruct es as [|[t l] es]; [destruct H; discriminate|].
      destruct H as [Ho Hn]. rewrite oldLines_cons in Ho. rewrite newLines_cons in Hn.
      rewrite cost_cons. destruct t.
      * cbn [map] in Ho, Hn. injection Ho as _ Ho. injection Hn as _ Hn.
        now apply IH1.
      * cbn [map] in Hn. injection Hn as _ Hn.
        destruct (script_drop_old es xs ys x (conj Ho Hn)) as (es' & H' & Hc).
        specialize (IH1 es' H'). lia.
      * cbn [map] in Ho. injection Ho as _ Ho.
        destruct (script_drop_new es xs ys y (conj Ho Hn)) as (es' & H' & Hc).
        specialize (IH1 es' H'). lia.
    + cbv zeta.
      destruct es as [|[t l] es]; [destruct H; discriminate|].
      destruct H as [Ho Hn]. rewrite oldLines_cons in Ho. rewrite newLines_cons in Hn.
      match goal with |- (Diff.cost (if ?b then ?d else ?i) <= _)%nat =>
        replace (Diff.cost (if b then d else i))
          with (if b then Diff.cost d else Diff.cost i) by now destruct b
      end.
      rewrite (cost_cons t). destruct t.
      * cbn [map] in Ho, Hn. injection Ho as Hx _. injection Hn as Hy _. congruence.
      * cbn [map] in Hn. injection Hn as _ Hn.
        specialize (IH3 es (conj Ho Hn)).
        etransitivity; [|apply le_n_S, IH3]. rewrite !cost_cons.
        destruct (Nat.leb_spec (S (Diff.cost (Diff.editScript xs (y :: ys))))
                    (S (Diff.cost (Diff.editScript (x :: xs) ys)))); lia.
      * cbn [map] in Ho. injection Ho as _ Ho.
        specialize (IH2 es (conj Ho Hn)).
        etransitivity; [|apply le_n_S, IH2]. rewrite !cost_cons.
        destruct (Nat.leb_spec (S (Diff.cost (Diff.editScript xs (y :: ys))))
                    (S (Diff.cost (Diff.editScript (x :: xs) ys)))); lia.
Qed.

(** ** Promise chains *)

Lemma andThen_resolved {A B : Type} (p : io A) (f : A -> io B)
    (fs fs' : gmap string string) (a : A) :
  p fs = (Resolved a, fs') -> (p >>> f) fs = f a fs'.
Proof. unfold andThen. now intros ->. Qed.

Lemma andThen_rejected {A B : Type} (p : io A) (f : A -> io B)
    (fs fs' : gmap string string) (err : string) :
  p fs = (Rejected err, fs') -> (p >>> f) fs = (Rejected err, fs').
Proof. unfold andThen. now intros ->. Qed.

Lemma andThen_inv {A B : Type} (p : io A) (f : A -> io B)
    (fs fs' : gmap string string) (b : B) :
  (p >>> f) fs = (Resolved b, fs') ->
  exists a fs1, p fs = (Resolved a, fs1) /\ f a fs1 = (Resolved b, fs').
Proof.
  unfold andThen. destruct (p fs) as [[a|err] fs1]; intros H.
  - now exists a, fs1.
  - discriminate.
Qed.

(** ** Copying *)

Lemma fileExists_true (path : string) (fs : gmap string string) :
  AsyncFsUtils.fileExists path fs = true <-> is_Some (fs !! path).
Proof. unfold AsyncFsUtils.fileExists. apply bool_decide_eq_true. Qed.

Lemma fileExists_false (path : string) (fs : gmap string string) :
  AsyncFsUtils.fileExists path fs = false <-> fs !! path = None.
Proof.
  unfold AsyncFsUtils.fileExists. rewrite bool_decide_eq_false.
  rewrite <- eq_None_not_Some. tauto.
Qed.

(** A copy either writes the content of the source to a destination that
    did not exist, or is refused and leaves the disk as it was. *)
Lemma copyFile_cases (w : World) (src dest : string) (fs : gmap string string) :
  (exists content,
      fs !! src = Some content /\ fs !! dest = None /\ copyFails w src dest = false /\
      AsyncFsUtils.copyFile w src dest false fs
      = (Resolved JUndefined, <[dest := content]> fs))
  \/ ((fs !! src = None \/ is_Some (fs !! dest) \/ copyFails w src dest = true) /\
      exists err, AsyncFsUtils.copyFile w src dest false fs = (Rejected err, fs)).
Proof.
  unfold AsyncFsUtils.copyFile.
  destruct (AsyncFsUtils.fileExists src fs) eqn:Es; cbn [negb].
  - apply fileExists_true in Es as [content Hc].
    destruct (AsyncFsUtils.fileExists dest fs) eqn:Ed; cbn [negb andb].
    + apply fileExists_true in Ed. right. split; [auto|]. now eexists.
    + apply fileExists_false in Ed.
      unfold andThen, resolve. rewrite Hc.
      destruct (copyFails w src dest) eqn:Ef.
      * right. split; [auto|]. now eexists.
      * left. exists content. auto.
  - apply fileExists_false in Es. right. split; [auto|]. now eexists.
Qed.

Lemma copyFile_fresh (w : World) (src dest content : string) (fs : gmap string string) :
  fs !! src = Some content -> fs !! dest = None -> copyFails w src dest = false ->
  AsyncFsUtils.copyFile w src dest false fs = (Resolved JUndefined, <[dest := content]> fs).
Proof.
  intros Hs Hd Hf.
  destruct (copyFile_cases w src dest fs) as [(c & Hc & _ & _ & ->)|[[H|[H|H]] _]];
    [congruence|congruence| |congruence].
  rewrite Hd in H. now destruct H.
Qed.

Lemma copyFile_exists (w : World) (src dest : string) (fs : gmap string string) :
  is_Some (fs !! dest) ->
  exists err, AsyncFsUtils.copyFile w src dest false fs = (Rejected err, fs).
Proof.
  intros Hd.
  destruct (copyFile_cases w src dest fs) as [(c & _ & Hn & _)|[_ H]]; [|exact H].
  rewrite Hn in Hd. now destruct Hd.
Qed.

(** ** The save step *)

Section Save.

Variable w : World.
Variable options : Options.
Variables tmpdir1 tmpdir2 : string.

Let src1 := Utils.getPackageXMLPath w options tmpdir1.
Let src2 := Utils.getPackageXMLPath w options tmpdir2.

Lemma save_not_triggered (rc : Z) (fs : gmap string string) :
  PackagexmlDiff.saveTriggered options rc = false ->
  PackagexmlDiff.save w options tmpdir1 tmpdir2 rc fs = (Resolved (JNum rc), fs).
Proof. unfold PackagexmlDiff.save. now intros ->. Qed.

Lemma save_resolved (rc : Z) (fs fs' : gmap string string) (v : jsval) :
  PackagexmlDiff.saveTriggered options rc = true ->
  PackagexmlDiff.save w options tmpdir1 tmpdir2 rc fs = (Resolved v, fs') ->
  v = JArr [JNum rc; JUndefined; JUndefined].
Proof.
  unfold PackagexmlDiff.save. intros ->.
  destruct (save_dir options) as [dir|]; [|discriminate].
  intros H. apply andThen_inv in H as (results & fs1 & Hall & Hres).
  injection Hres as <- _. f_equal.
  cbn [all] in Hall. unfold resolve at 1 in Hall.
  destruct (copyFile_cases w (Utils.getPackageXMLPath w options tmpdir1)
              (join w [dir; PackagexmlDiff.saveName "1" (clock w 0)]) fs)
    as [(c1 & _ & _ & _ & E1)|[_ [e1 E1]]]; rewrite E1 in Hall.
  - match type of Hall with context [AsyncFsUtils.copyFile w ?s ?d false ?f] =>
      destruct (copyFile_cases w s d f) as [(c2 & _ & _ & _ & E2)|[_ [e2 E2]]];
      rewrite E2 in Hall
    end.
    + unfold resolve in Hall. now injection Hall as <- _.
    + discriminate.
  - match type of Hall with context [AsyncFsUtils.copyFile w ?s ?d false ?f] =>
      destruct (AsyncFsUtils.copyFile w s d false f) as [[?|?] ?]
    end; discriminate.
Qed.

Lemma save_success (rc : Z) (fs : gmap string string) (dir c1 c2 : string) :
  PackagexmlDiff.saveTriggered options rc = true ->
  save_dir options = Some dir ->
  let dest1 := join w [dir; PackagexmlDiff.saveName "1" (clock w 0)] in
  let dest2 := join w [dir; PackagexmlDiff.saveName "2" (clock w 1)] in
  fs !! src1 = Some c1 -> fs !! src2 = Some c2 ->
  fs !! dest1 = None -> fs !! dest2 = None -> dest1 <> dest2 ->
  copyFails w src1 dest1 = false -> copyFails w src2 dest2 = false ->
  PackagexmlDiff.save w options tmpdir1 tmpdir2 rc fs
  = (Resolved (JArr [JNum rc; JUndefined; JUndefined]),
     <[dest2 := c2]> (<[dest1 := c1]> fs)).
Proof.
  intros Ht Hdir dest1 dest2 Hs1 Hs2 Hd1 Hd2 Hne Hf1 Hf2.
  unfold PackagexmlDiff.save. rewrite Ht, Hdir.
  unfold andThen. cbn [all]. unfold resolve at 1.
  fold src1 src2 dest1 dest2.
  rewrite (copyFile_fresh w src1 dest1 c1 fs Hs1 Hd1 Hf1).
  rewrite (copyFile_fresh w src2 dest2 c2 (<[dest1 := c1]> fs)); try assumption.
  - reflexivity.
  - rewrite lookup_insert_ne; [assumption|]. intros E. congruence.
  - rewrite lookup_insert_ne; [assumption|]. exact Hne.
Qed.

Lemma filesWritten_two (fs : gmap string string) (d1 d2 c1 c2 : string) :
  fs !! d1 = None -> fs !! d2 = None -> d1 <> d2 ->
  AsyncFsUtils.filesWritten fs (<[d2 := c2]> (<[d1 := c1]> fs)) = 2%nat.
Proof.
  intros H1 H2 Hne. unfold AsyncFsUtils.filesWritten.
  apply not_elem_of_dom in H1, H2.
  rewrite !dom_insert_L.
  rewrite union_assoc_L, difference_union_distr_l_L, difference_diag_L.
  rewrite (right_id_L ∅ (∪)).
  rewrite difference_disjoint_L.
  - rewrite size_union by (apply disjoint_singleton_l; now rewrite elem_of_singleton).
    now rewrite !size_singleton.
  - apply disjoint_union_l. split; now apply disjoint_singleton_l.
Qed.

Lemma filesWritten_none (fs : gmap string string) : AsyncFsUtils.filesWritten fs fs = 0%nat.
Proof.
  unfold AsyncFsUtils.filesWritten. rewrite difference_diag_L. apply size_empty.
Qed.

End Save.

(** ** The stages of the pipeline *)

Section Stages.

Variable w : World.
Variable options : Options.

Lemma ensureOrgs_cases (fs : gmap string string) :
  (orgConnected w (PackagexmlDiff.str (org1 options)) = true /\
   orgConnected w (PackagexmlDiff.str (org2 options)) = true /\
   PackagexmlDiff.ensureOrgs w options fs = (Resolved [tt; tt], fs))
  \/ ((orgConnected w (PackagexmlDiff.str (org1 options)) = false \/
       orgConnected w (PackagexmlDiff.str (org2 options)) = false) /\
      exists err, PackagexmlDiff.ensureOrgs w options fs = (Rejected err, fs)).
Proof.
  unfold PackagexmlDiff.ensureOrgs, SalesforceDX.ensureOrgConnected.
  cbn [all]. unfold resolve.
  destruct (orgConnected w (PackagexmlDiff.str (org1 options)));
    destruct (orgConnected w (PackagexmlDiff.str (org2 options))).
  - left. auto.
  - right. split; [auto|]. now eexists.
  - right. split; [auto|]. now eexists.
  - right. split; [auto|]. now eexists.
Qed.

Lemma createTempDirs_cases (fs : gmap string string) :
  (exists t1 t2, tmpDir w 0 = Some t1 /\ tmpDir w 1 = Some t2 /\
     PackagexmlDiff.createTempDirs w fs = (Resolved [t1; t2], fs))
  \/ ((tmpDir w 0 = None \/ tmpDir w 1 = None) /\
      exists err, PackagexmlDiff.createTempDirs w fs = (Rejected err, fs)).
Proof.
  unfold PackagexmlDiff.createTempDirs, AsyncFsUtils.createTempDir.
  cbn [all]. unfold resolve.
  destruct (tmpDir w 0) as [t1|]; destruct (tmpDir w 1) as [t2|].
  - left. exists t1, t2. auto.
  - right. split; [auto|]. now eexists.
  - right. split; [auto|]. now eexists.
  - right. split; [auto|]. now eexists.
Qed.

(** The course of the chain up to the allocation of the directories. *)
Lemma pipeline_cases (fs : gmap string string) :
  (exists t1 t2,
      orgConnected w (PackagexmlDiff.str (org1 options)) = true /\
      orgConnected w (PackagexmlDiff.str (org2 options)) = true /\
      tmpDir w 0 = Some t1 /\ tmpDir w 1 = Some t2 /\
      PackagexmlDiff.pipeline w options fs = PackagexmlDiff.afterTempDirs w options t1 t2 fs)
  \/ ((orgConnected w (PackagexmlDiff.str (org1 options)) = false \/
       orgConnected w (PackagexmlDiff.str (org2 options)) = false \/
       tmpDir w 0 = None \/ tmpDir w 1 = None) /\
      exists err, PackagexmlDiff.pipeline w options fs = (Rejected err, fs)).
Proof.
  unfold PackagexmlDiff.pipeline.
  destruct (ensureOrgs_cases fs) as [(H1 & H2 & E)|[H [err E]]].
  - destruct (createTempDirs_cases fs) as [(t1 & t2 & T1 & T2 & Et)|[Ht [err Et]]].
    + left. exists t1, t2. repeat split; try assumption.
      unfold andThen at 1 2. now rewrite E, Et.
    + right. split; [tauto|]. exists err.
      unfold andThen at 1 2. now rewrite E, Et.
  - right. split; [tauto|]. exists err.
    unfold andThen at 1 2. now rewrite E.
Qed.

Section WithTempDirs.

Variables tmpdir1 tmpdir2 : string.

Let src1 := Utils.getPackageXMLPath w options tmpdir1.
Let src2 := Utils.getPackageXMLPath w options tmpdir2.

Lemma readPackageXmls_cases (fs : gmap string string) :
  (exists c1 c2, fs !! src1 = Some c1 /\ fs !! src2 = Some c2 /\
     PackagexmlDiff.readPackageXmls w options tmpdir1 tmpdir2 fs = (Resolved [c1; c2], fs))
  \/ ((fs !! src1 = None \/ fs !! src2 = None) /\
      exists err,
        PackagexmlDiff.readPackageXmls w options tmpdir1 tmpdir2 fs = (Rejected err, fs)).
Proof.
  unfold PackagexmlDiff.readPackageXmls, AsyncFsUtils.readFile.
  cbn [all]. unfold resolve. fold src1 src2.
  destruct (fs !! src1) as [c1|]; destruct (fs !! src2) as [c2|].
  - left. exists c1, c2. auto.
  - right. split; [auto|]. now eexists.
  - right. split; [auto|]. now eexists.
  - right. split; [auto|]. now eexists.
Qed.

(** The texts that reach the comparison are two, and they are the
    contents of the two manifest files at that point. *)
Lemma inspect_resolved (fs fs' : gmap string string) (contents : list string) :
  PackagexmlDiff.inspect w options tmpdir1 tmpdir2 fs = (Resolved contents, fs') ->
  exists c1 c2, contents = [c1; c2] /\ fs' !! src1 = Some c1 /\ fs' !! src2 = Some c2.
Proof.
  unfold PackagexmlDiff.inspect, PackagexmlDiff.detectAndRemove.
  assert (forall f f', PackagexmlDiff.readPackageXmls w options tmpdir1 tmpdir2 f
                       = (Resolved contents, f') ->
            exists c1 c2, contents = [c1; c2] /\
                          f' !! src1 = Some c1 /\ f' !! src2 = Some c2) as Hread.
  { intros f f' H.
    destruct (readPackageXmls_cases f) as [(c1 & c2 & H1 & H2 & E)|[_ [err E]]];
      rewrite E in H; [|discriminate].
    injection H as <- <-. now exists c1, c2. }
  destruct (truthy (packagexml options)).
  - apply Hread.
  - intros H. apply andThen_inv in H as (x & fs1 & _ & H). now apply Hread in H.
Qed.

Lemma manifests_resolved (fs fs' : gmap string string) (contents : list string) :
  PackagexmlDiff.manifests w options tmpdir1 tmpdir2 fs = (Resolved contents, fs') ->
  exists c1 c2, contents = [c1; c2] /\ fs' !! src1 = Some c1 /\ fs' !! src2 = Some c2.
Proof.
  unfold PackagexmlDiff.manifests. intros H.
  apply andThen_inv in H as (x & fs1 & _ & H). now apply inspect_resolved in H.
Qed.

Lemma afterTempDirs_cases (fs : gmap string string) :
  (exists c1 c2 fs1,
      PackagexmlDiff.manifests w options tmpdir1 tmpdir2 fs = (Resolved [c1; c2], fs1) /\
      fs1 !! src1 = Some c1 /\ fs1 !! src2 = Some c2 /\
      PackagexmlDiff.afterTempDirs w options tmpdir1 tmpdir2 fs
      = PackagexmlDiff.save w options tmpdir1 tmpdir2 (PackagexmlDiff.compare [c1; c2]) fs1)
  \/ (exists err fs1,
      PackagexmlDiff.manifests w options tmpdir1 tmpdir2 fs = (Rejected err, fs1) /\
      PackagexmlDiff.afterTempDirs w options tmpdir1 tmpdir2 fs = (Rejected err, fs1)).
Proof.
  unfold PackagexmlDiff.afterTempDirs.
  destruct (PackagexmlDiff.manifests w options tmpdir1 tmpdir2 fs) as [[contents|err] fs1] eqn:E.
  - left. destruct (manifests_resolved _ _ _ E) as (c1 & c2 & -> & H1 & H2).
    exists c1, c2, fs1. repeat split; try assumption.
    unfold andThen at 1 2. rewrite E. reflexivity.
  - right. exists err, fs1. split; [reflexivity|].
    unfold andThen at 1 2. now rewrite E.
Qed.

End WithTempDirs.

End Stages.

(** ** The detection and removal stage on disk *)

Section DetectAndRemove.

Variable w : World.
Variable options : Options.
Variables tmpdir1 tmpdir2 : string.

Let path1 := Utils.getPackageXMLPath w options tmpdir1.
Let path2 := Utils.getPackageXMLPath w options tmpdir2.

Lemma removal_cases (tmpdir content : string) :
  (exists n,
      PackagexmlDiff.removal w options tmpdir (LineNumber.lineNumber content PackagexmlDiff.re)
      = [AsyncLineRemove.lineRemove (Utils.getPackageXMLPath w options tmpdir) n] /\
      LineReplace.lineReplace content n "" false = PackagexmlDiff.stripMarker content)
  \/ (PackagexmlDiff.removal w options tmpdir (LineNumber.lineNumber content PackagexmlDiff.re)
      = [] /\ PackagexmlDiff.stripMarker content = content).
Proof.
  unfold PackagexmlDiff.removal, PackagexmlDiff.stripMarker.
  destruct (LineNumber.lineNumber content PackagexmlDiff.re) as [|m [|m' ms]].
  - now right.
  - left. now exists (LineNumber.number m).
  - now right.
Qed.

Lemma lineRemove_present (file content : string) (n : nat) (fs : gmap string string) :
  fs !! file = Some content ->
  AsyncLineRemove.lineRemove file n fs
  = (Resolved tt, <[file := LineReplace.lineReplace content n "" false]> fs).
Proof. unfold AsyncLineRemove.lineRemove. now intros ->. Qed.

(** With the two manifests in different files, the stage leaves in each
    file, and returns, the stripped text of that manifest. *)
Lemma detectAndRemove_contents (fs : gmap string string) (c1 c2 : string) :
  path1 <> path2 -> fs !! path1 = Some c1 -> fs !! path2 = Some c2 ->
  PackagexmlDiff.detectAndRemove w options tmpdir1 tmpdir2 fs
  = (Resolved [PackagexmlDiff.stripMarker c1; PackagexmlDiff.stripMarker c2],
     <[path2 := PackagexmlDiff.stripMarker c2]>
       (<[path1 := PackagexmlDiff.stripMarker c1]> fs)).
Proof.
  intros Hne H1 H2.
  assert (forall f s1 s2,
             f !! path1 = Some s1 -> f !! path2 = Some s2 ->
             PackagexmlDiff.readPackageXmls w options tmpdir1 tmpdir2 f
             = (Resolved [s1; s2], f)) as Hread.
  { intros f s1 s2 L1 L2.
    unfold PackagexmlDiff.readPackageXmls, AsyncFsUtils.readFile. cbn [all].
    fold path1 path2. unfold resolve. now rewrite L1, L2. }
  unfold PackagexmlDiff.detectAndRemove.
  unfold andThen. rewrite (Hread fs c1 c2 H1 H2).
  unfold PackagexmlDiff.item. cbn [nth].
  destruct (removal_cases tmpdir1 c1) as [(n1 & -> & S1)|[-> S1]];
    destruct (removal_cases tmpdir2 c2) as [(n2 & -> & S2)|[-> S2]];
    fold path1 path2; cbn [app all]; unfold resolve.
  - rewrite (lineRemove_present path1 c1 n1 fs H1).
    rewrite (lineRemove_present path2 c2 n2); [|now rewrite lookup_insert_ne].
    rewrite S1, S2. apply Hread.
    + rewrite lookup_insert_ne by congruence. apply lookup_insert_eq.
    + apply lookup_insert_eq.
  - rewrite (lineRemove_present path1 c1 n1 fs H1). rewrite S1, S2.
    rewrite (Hread _ (PackagexmlDiff.stripMarker c1) c2).
    + f_equal. symmetry. apply insert_id. now rewrite lookup_insert_ne.
    + apply lookup_insert_eq.
    + now rewrite lookup_insert_ne.
  - rewrite (lineRemove_present path2 c2 n2 fs H2). rewrite S1, S2.
    rewrite (insert_id fs path1 c1 H1). apply Hread.
    + now rewrite lookup_insert_ne by congruence.
    + apply lookup_insert_eq.
  - rewrite S1, S2, (Hread fs c1 c2 H1 H2). f_equal.
    rewrite (insert_id fs path1 c1 H1). symmetry. now apply insert_id.
Qed.

End DetectAndRemove.

(** ** The exit status *)

Lemma processExit_code (rt : runtime) (n : Z) :
  n = 0 \/ n = 1 -> processExit rt (JNum n) = Some n.
Proof. intros [-> | ->]; destruct rt; reflexivity. Qed.

Section Status.

Variable w : World.
Variable options : Options.

Lemma run_invalid (fs : gmap string string) :
  PackagexmlDiff.argsValid w options = false -> PackagexmlDiff.run w options fs = (0, fs).
Proof. unfold PackagexmlDiff.run. now intros ->. Qed.

Lemma run_rejected (fs fs' : gmap string string) (err : string) :
  PackagexmlDiff.argsValid w options = true ->
  PackagexmlDiff.pipeline w options fs = (Rejected err, fs') ->
  PackagexmlDiff.run w options fs = (1, fs').
Proof. unfold PackagexmlDiff.run. now intros -> ->. Qed.

Lemma run_code (fs fs' : gmap string string) (n : Z) :
  PackagexmlDiff.argsValid w options = true ->
  PackagexmlDiff.pipeline w options fs = (Resolved (JNum n), fs') ->
  n = 0 \/ n = 1 ->
  PackagexmlDiff.run w options fs = (n, fs').
Proof.
  unfold PackagexmlDiff.run. intros -> -> Hn. cbn [negb].
  now rewrite processExit_code.
Qed.

Lemma retrieveMetadata_failure (t1 t2 : string) (fs : gmap string string) :
  retrieve w (PackagexmlDiff.str (org1 options)) (PackagexmlDiff.retrieveCommand options t1) = None \/
  retrieve w (PackagexmlDiff.str (org2 options)) (PackagexmlDiff.retrieveCommand options t2) = None ->
  exists err fs', PackagexmlDiff.retrieveMetadata w options t1 t2 fs = (Rejected err, fs').
Proof.
  unfold PackagexmlDiff.retrieveMetadata, SalesforceDX.executeSFDXCommand.
  cbn [all]. unfold resolve.
  destruct (retrieve w (PackagexmlDiff.str (org1 options)) _);
    destruct (retrieve w (PackagexmlDiff.str (org2 options)) _);
    intros [H|H]; try discriminate; now do 2 eexists.
Qed.

Lemma unzipFile_failure (file dest : string) (fs : gmap string string) :
  (forall bytes, unzip w bytes = None) ->
  exists err, AsyncFsUtils.unzipFile w file dest fs = (Rejected err, fs).
Proof.
  intros H. unfold AsyncFsUtils.unzipFile.
  destruct (fs !! file) as [bytes|]; [rewrite H|]; now eexists.
Qed.

Lemma unzipMetadata_failure (t1 t2 : string) (fs : gmap string string) :
  (forall bytes, unzip w bytes = None) ->
  exists err, PackagexmlDiff.unzipMetadata w t1 t2 fs = (Rejected err, fs).
Proof.
  intros H. unfold PackagexmlDiff.unzipMetadata. cbn [all]. unfold resolve.
  destruct (unzipFile_failure (join w [t1; "unpackaged.zip"]) t1 fs H) as [e1 ->].
  destruct (unzipFile_failure (join w [t2; "unpackaged.zip"]) t2 fs H) as [e2 ->].
  now eexists.
Qed.

Lemma manifests_retrieve_failure (t1 t2 : string) (fs : gmap string string) :
  retrieve w (PackagexmlDiff.str (org1 options)) (PackagexmlDiff.retrieveCommand options t1) = None \/
  retrieve w (PackagexmlDiff.str (org2 options)) (PackagexmlDiff.retrieveCommand options t2) = None ->
  exists err fs', PackagexmlDiff.manifests w options t1 t2 fs = (Rejected err, fs').
Proof.
  intros H. destruct (retrieveMetadata_failure t1 t2 fs H) as (err & fs' & E).
  exists err, fs'. unfold PackagexmlDiff.manifests, andThen. now rewrite E.
Qed.

Lemma manifests_unzip_failure (t1 t2 : string) (fs : gmap string string) :
  (forall bytes, unzip w bytes = None) ->
  exists err fs', PackagexmlDiff.manifests w options t1 t2 fs = (Rejected err, fs').
Proof.
  intros H. unfold PackagexmlDiff.manifests, andThen.
  destruct (PackagexmlDiff.retrieveMetadata w options t1 t2 fs) as [[x|err] fs1].
  - destruct (unzipMetadata_failure t1 t2 fs1 H) as [err ->]. now do 2 eexists.
  - now do 2 eexists.
Qed.

(** A run with valid arguments: either the chain is rejected and the
    status is 1, or every stage up to the comparison succeeded and the save
    step decides. *)
Lemma run_cases (fs : gmap string string) :
  PackagexmlDiff.argsValid w options = true ->
  (exists err fs', PackagexmlDiff.pipeline w options fs = (Rejected err, fs') /\
                   PackagexmlDiff.run w options fs = (1, fs'))
  \/ (exists t1 t2 c1 c2 fs1,
        orgConnected w (PackagexmlDiff.str (org1 options)) = true /\
        orgConnected w (PackagexmlDiff.str (org2 options)) = true /\
        tmpDir w 0 = Some t1 /\ tmpDir w 1 = Some t2 /\
        PackagexmlDiff.manifests w options t1 t2 fs = (Resolved [c1; c2], fs1) /\
        fs1 !! Utils.getPackageXMLPath w options t1 = Some c1 /\
        fs1 !! Utils.getPackageXMLPath w options t2 = Some c2 /\
        PackagexmlDiff.pipeline w options fs
        = PackagexmlDiff.save w options t1 t2 (PackagexmlDiff.compare [c1; c2]) fs1).
Proof.
  intros Hv.
  destruct (pipeline_cases w options fs)
    as [(t1 & t2 & H1 & H2 & T1 & T2 & E)|[_ [err E]]].
  - destruct (afterTempDirs_cases w options t1 t2 fs)
      as [(c1 & c2 & fs1 & Em & L1 & L2 & Ea)|(err & fs1 & Em & Ea)].
    + right. exists t1, t2, c1, c2, fs1. rewrite E, Ea. tauto.
    + left. exists err, fs1. rewrite E, Ea. split; [reflexivity|].
      apply run_rejected with err; [assumption|]. now rewrite E.
  - left. exists err, fs. split; [assumption|]. now apply run_rejected with err.
Qed.

Lemma run_failure (fs : gmap string string) :
  PackagexmlDiff.argsValid w options = true ->
  (exists err fs', PackagexmlDiff.pipeline w options fs = (Rejected err, fs')) ->
  fst (PackagexmlDiff.run w options fs) = 1.
Proof.
  intros Hv (err & fs' & E). now rewrite (run_rejected fs fs' err Hv E).
Qed.

End Status.

(** ** Claims about the marker strip *)



(** C5: a manifest text in which no line, or more than one line, matches
    the marker pattern is left unchanged by the strip. *)
Theorem strip_without_single_marker (content : string) :
  PackagexmlDiff.markerLines content = 0%nat \/ (2 <= PackagexmlDiff.markerLines content)%nat ->
  PackagexmlDiff.stripMarker content = content.
Proof. intros H. apply stripMarker_other. lia. Qed.

Lemma strip_without_single_marker_witness :
  (2 <= PackagexmlDiff.markerLines Examples.manifestTwoMarkers)%nat /\
  PackagexmlDiff.stripMarker Examples.manifestTwoMarkers = Examples.manifestTwoMarkers.
Proof.
  split; [vm_compute; lia|].
  apply (strip_without_single_marker Examples.manifestTwoMarkers).
  right. vm_compute. lia.
Defined.

(** C6: the strip is idempotent. *)
Theorem strip_idempotent (content : string) :
  PackagexmlDiff.stripMarker (PackagexmlDiff.stripMarker content)
  = PackagexmlDiff.stripMarker content.
Proof.
  destruct (Nat.eq_dec (PackagexmlDiff.markerLines content) 1%nat) as [H|H].
  - destruct (stripMarker_single content H) as (before & l & after & Hls & _ & Hf & Hs).
    apply stripMarker_other.
    unfold PackagexmlDiff.markerLines. rewrite Hs, lines_unlines, Hf; [discriminate|].
    apply Forall_noLF_remove with l. rewrite <- Hls. apply lines_noLF.
  - now rewrite !(stripMarker_other content H).
Qed.

(** ** Claims about the helpers *)

(** C7: the locator returns [<base>/package.xml] when the retrieval is
    driven by the package name and [<base>/unpackaged/package.xml] when it
    is driven by an explicit manifest, for every base directory. *)
Theorem manifest_locator (w : World) (options : Options) (base : string) :
  (truthy (packagexml options) = false ->
   PackagexmlDiff.retrieveArgs options
   = "--singlepackage --packagenames " +:+ PackagexmlDiff.str (packagename options)
     +:+ " --wait 100" /\
   Utils.getPackageXMLPath w options base = join w [base; "package.xml"]) /\
  (truthy (packagexml options) = true ->
   PackagexmlDiff.retrieveArgs options
   = "--unpackaged " +:+ PackagexmlDiff.str (packagexml options) +:+ " --wait 100" /\
   Utils.getPackageXMLPath w options base = join w [base; "unpackaged"; "package.xml"]).
Proof.
  unfold PackagexmlDiff.retrieveArgs, Utils.getPackageXMLPath.
  split; intros ->; (split; [|reflexivity]); now rewrite append_assoc.
Qed.

Lemma manifest_locator_witness :
  Utils.getPackageXMLPath (Examples.world "" "" CoercingExit) (Examples.options "never") "/tmp/1"
  = "/tmp/1/package.xml".
Proof.
  apply (proj1 (manifest_locator (Examples.world "" "" CoercingExit)
                  (Examples.options "never") "/tmp/1")).
  reflexivity.
Defined.

(** ** The timestamp *)

Lemma pad_twoDigits (v : Z) : 0 <= v < 100 -> Utils.pad v = TimestampFormat.twoDigits v.
Proof.
  intros H.
  assert (forallb (fun n => String.eqb (Utils.pad (Z.of_nat n))
                              (TimestampFormat.twoDigits (Z.of_nat n)))
            (seq 0 100) = true) as Hall by (vm_compute; reflexivity).
  rewrite forallb_forall in Hall.
  specialize (Hall (Z.to_nat v)). rewrite Z2Nat.id in Hall by lia.
  apply String.eqb_eq, Hall, in_seq. lia.
Qed.

Lemma year_fourDigits (y : Z) :
  1000 <= y <= 9999 -> numToString y = TimestampFormat.fourDigits y.
Proof.
  intros H.
  assert (forallb (fun n => String.eqb (numToString (Z.of_nat n))
                              (TimestampFormat.fourDigits (Z.of_nat n)))
            (seq (Z.to_nat 1000) (Z.to_nat 9000)) = true) as Hall by (vm_compute; reflexivity).
  rewrite forallb_forall in Hall.
  specialize (Hall (Z.to_nat y)). rewrite Z2Nat.id in Hall by lia.
  apply String.eqb_eq, Hall, in_seq. lia.
Qed.

(** The timestamp of a valid instant with a four-digit year has the
    format of the specification, with the month counted from zero. *)
Lemma getTimestamp_stamp (d : Date) :
  validDate d -> 1000 <= year d <= 9999 -> Utils.getTimestamp d = TimestampFormat.stamp d.
Proof.
  intros (Hm & Hd & Hh & Hmi & Hs) Hy.
  unfold Utils.getTimestamp, TimestampFormat.stamp,
    getUTCFullYear, getUTCMonth, getUTCDate, getUTCHours, getUTCMinutes, getUTCSeconds.
  rewrite (year_fourDigits (year d) Hy).
  rewrite !pad_twoDigits by lia. reflexivity.
Qed.

Lemma stamp_length (d : Date) : String.length (TimestampFormat.stamp d) = 20%nat.
Proof. reflexivity. Qed.

(** C9: when the save step copies the manifests, the copies are
    [package-1-<timestamp>.xml] and [package-2-<timestamp>.xml] in the save
    directory, the timestamp reading [YYYY-MM-DDTHH:MM:SSZ] in UTC with
    zero-padded two-digit fields and the month counted from zero. *)
Theorem saved_file_names (w : World) (options : Options) (tmpdir1 tmpdir2 : string)
    (rc : Z) (fs : gmap string string) (dir c1 c2 : string) :
  PackagexmlDiff.saveTriggered options rc = true ->
  save_dir options = Some dir ->
  validDate (clock w 0) -> 1000 <= year (clock w 0) <= 9999 ->
  validDate (clock w 1) -> 1000 <= year (clock w 1) <= 9999 ->
  let src1 := Utils.getPackageXMLPath w options tmpdir1 in
  let src2 := Utils.getPackageXMLPath w options tmpdir2 in
  let dest1 := join w [dir; "package-1-" +:+ TimestampFormat.stamp (clock w 0) +:+ ".xml"] in
  let dest2 := join w [dir; "package-2-" +:+ TimestampFormat.stamp (clock w 1) +:+ ".xml"] in
  fs !! src1 = Some c1 -> fs !! src2 = Some c2 ->
  fs !! dest1 = None -> fs !! dest2 = None -> dest1 <> dest2 ->
  copyFails w src1 dest1 = false -> copyFails w src2 dest2 = false ->
  snd (PackagexmlDiff.save w options tmpdir1 tmpdir2 rc fs)
  = <[dest2 := c2]> (<[dest1 := c1]> fs).
Proof.
  intros Ht Hdir V0 Y0 V1 Y1 src1 src2 dest1 dest2 Hs1 Hs2 Hd1 Hd2 Hne Hf1 Hf2.
  assert (join w [dir; PackagexmlDiff.saveName "1" (clock w 0)] = dest1) as E1.
  { unfold PackagexmlDiff.saveName. now rewrite getTimestamp_stamp. }
  assert (join w [dir; PackagexmlDiff.saveName "2" (clock w 1)] = dest2) as E2.
  { unfold PackagexmlDiff.saveName. now rewrite getTimestamp_stamp. }
  rewrite (save_success w options tmpdir1 tmpdir2 rc fs dir c1 c2 Ht Hdir);
    rewrite ?E1, ?E2; try assumption.
  reflexivity.
Qed.

Lemma saved_file_names_witness :
  snd (PackagexmlDiff.save (Examples.world "" "" CoercingExit) (Examples.options "always")
         "/tmp/1" "/tmp/2" 0 Examples.diskWithManifests)
  = <["/out/package-2-2018-04-03T14:00:59Z.xml" := "<b/>"]>
      (<["/out/package-1-2018-04-03T14:00:59Z.xml" := "<a/>"]> Examples.diskWithManifests).
Proof.
  apply (saved_file_names (Examples.world "" "" CoercingExit) (Examples.options "always")
           "/tmp/1" "/tmp/2" 0 Examples.diskWithManifests "/out" "<a/>" "<b/>");
    try reflexivity; try (unfold validDate; simpl; lia); try (simpl; lia).
  discriminate.
Defined.

(** ** Claims about saving and the exit *)

Lemma saveTriggered_never (options : Options) (rc : Z) :
  save_packagexml options = Some "never" -> PackagexmlDiff.saveTriggered options rc = false.
Proof. unfold PackagexmlDiff.saveTriggered. now intros ->. Qed.

Lemma saveTriggered_always (options : Options) (rc : Z) :
  save_packagexml options = Some "always" -> PackagexmlDiff.saveTriggered options rc = true.
Proof. unfold PackagexmlDiff.saveTriggered. now intros ->. Qed.

Lemma saveTriggered_diff (options : Options) (rc : Z) :
  save_packagexml options = Some "diff" ->
  PackagexmlDiff.saveTriggered options rc = (rc =? 1).
Proof. unfold PackagexmlDiff.saveTriggered. now intros ->. Qed.

(** C8, as amended: with the policy [never], and with the policy [diff]
    when the outcome is not 1, the save step writes no file; with the
    policy [always], and with the policy [diff] when the outcome is 1, it
    starts one copy per manifest and writes exactly two files, provided
    both manifests are on disk, no file exists yet under either
    destination name and the copies themselves succeed. *)
Theorem save_policy_matrix (w : World) (options : Options) (tmpdir1 tmpdir2 : string)
    (rc : Z) (fs : gmap string string) :
  let result := PackagexmlDiff.save w options tmpdir1 tmpdir2 rc fs in
  (save_packagexml options = Some "never" ->
   snd result = fs /\ AsyncFsUtils.filesWritten fs (snd result) = 0%nat) /\
  (save_packagexml options = Some "diff" -> rc <> 1 ->
   snd result = fs /\ AsyncFsUtils.filesWritten fs (snd result) = 0%nat) /\
  (save_packagexml options = Some "always" \/
   (save_packagexml options = Some "diff" /\ rc = 1) ->
   forall dir c1 c2,
     save_dir options = Some dir ->
     let src1 := Utils.getPackageXMLPath w options tmpdir1 in
     let src2 := Utils.getPackageXMLPath w options tmpdir2 in
     let dest1 := join w [dir; PackagexmlDiff.saveName "1" (clock w 0)] in
     let dest2 := join w [dir; PackagexmlDiff.saveName "2" (clock w 1)] in
     fs !! src1 = Some c1 -> fs !! src2 = Some c2 ->
     fs !! dest1 = None -> fs !! dest2 = None -> dest1 <> dest2 ->
     copyFails w src1 dest1 = false -> copyFails w src2 dest2 = false ->
     snd result = <[dest2 := c2]> (<[dest1 := c1]> fs) /\
     AsyncFsUtils.filesWritten fs (snd result) = 2%nat).
Proof.
  intros result. subst result. repeat split.
  - rewrite save_not_triggered; [reflexivity|]. now apply saveTriggered_never.
  - rewrite save_not_triggered; [apply filesWritten_none|]. now apply saveTriggered_never.
  - rewrite save_not_triggered; [reflexivity|].
    rewrite saveTriggered_diff by assumption. now apply Z.eqb_neq.
  - rewrite save_not_triggered; [apply filesWritten_none|].
    rewrite saveTriggered_diff by assumption. now apply Z.eqb_neq.
  - rewrite (save_success w options tmpdir1 tmpdir2 rc fs dir c1 c2); try assumption;
      [reflexivity|].
    destruct H as [H|[H ->]];
      [now apply saveTriggered_always | now rewrite saveTriggered_diff].
  - rewrite (save_success w options tmpdir1 tmpdir2 rc fs dir c1 c2); try assumption.
    + now apply filesWritten_two.
    + destruct H as [H|[H ->]];
        [now apply saveTriggered_always | now rewrite saveTriggered_diff].
Qed.

Lemma save_policy_matrix_witness :
  AsyncFsUtils.filesWritten Examples.diskWithManifests
    (snd (PackagexmlDiff.save (Examples.world "" "" CoercingExit) (Examples.options "diff")
            "/tmp/1" "/tmp/2" 1 Examples.diskWithManifests)) = 2%nat.
Proof.
  apply (proj2 (proj2 (save_policy_matrix (Examples.world "" "" CoercingExit)
                         (Examples.options "diff") "/tmp/1" "/tmp/2" 1
                         Examples.diskWithManifests))
           (or_intror (conj eq_refl eq_refl)) "/out" "<a/>" "<b/>");
    try reflexivity.
  discriminate.
Defined.

(** C8 as stated fails: with the policy [always], a save directory that
    already holds files under both destination names gets no file
    written. *)
Lemma save_always_existing_copies :
  let w := Examples.world "" "" CoercingExit in
  let options := Examples.options "always" in
  save_packagexml options = Some "always" /\
  fst (PackagexmlDiff.save w options "/tmp/1" "/tmp/2" 0 Examples.diskWithCopies)
  = Rejected "Destination exists" /\
  AsyncFsUtils.filesWritten Examples.diskWithCopies
    (snd (PackagexmlDiff.save w options "/tmp/1" "/tmp/2" 0 Examples.diskWithCopies))
  = 0%nat.
Proof.
  split; [reflexivity|]. split; vm_compute; reflexivity.
Qed.

Lemma pair_of_fst {A B : Type} (p : A * B) (a : A) : fst p = a -> p = (a, snd p).
Proof. destruct p. simpl. now intros ->. Qed.



(** ** The exit status of a run *)

Section ExitStatus.

Variable w : World.
Variable options : Options.
Variable fs : gmap string string.

Lemma pipeline_reaches_save (t1 t2 : string) (contents : list string)
    (fs1 : gmap string string) :
  orgConnected w (PackagexmlDiff.str (org1 options)) = true ->
  orgConnected w (PackagexmlDiff.str (org2 options)) = true ->
  tmpDir w 0 = Some t1 -> tmpDir w 1 = Some t2 ->
  PackagexmlDiff.manifests w options t1 t2 fs = (Resolved contents, fs1) ->
  PackagexmlDiff.pipeline w options fs
  = PackagexmlDiff.save w options t1 t2 (PackagexmlDiff.compare contents) fs1.
Proof.
  intros H1 H2 T1 T2 Em.
  destruct (pipeline_cases w options fs)
    as [(t1' & t2' & _ & _ & T1' & T2' & E)|[[H|[H|[H|H]]] _]]; try congruence.
  rewrite E. replace t1' with t1 by congruence. replace t2' with t2 by congruence.
  unfold PackagexmlDiff.afterTempDirs, andThen at 1 2. now rewrite Em.
Qed.

Lemma pipeline_manifests_rejected (t1 t2 err : string) (fs1 : gmap string string) :
  tmpDir w 0 = Some t1 -> tmpDir w 1 = Some t2 ->
  PackagexmlDiff.manifests w options t1 t2 fs = (Rejected err, fs1) ->
  exists err' fs', PackagexmlDiff.pipeline w options fs = (Rejected err', fs').
Proof.
  intros T1 T2 Em.
  destruct (pipeline_cases w options fs)
    as [(t1' & t2' & _ & _ & T1' & T2' & E)|[_ [err' E]]].
  - rewrite E. replace t1' with t1 by congruence. replace t2' with t2 by congruence.
    exists err, fs1. unfold PackagexmlDiff.afterTempDirs, andThen at 1 2. now rewrite Em.
  - now exists err', fs.
Qed.

Lemma manifests_unreadable (t1 t2 : string) (x : list unit) (fs2 : gmap string string) :
  (PackagexmlDiff.retrieveMetadata w options t1 t2
     >>> (fun _ => PackagexmlDiff.unzipMetadata w t1 t2)) fs = (Resolved x, fs2) ->
  fs2 !! Utils.getPackageXMLPath w options t1 = None \/
  fs2 !! Utils.getPackageXMLPath w options t2 = None ->
  exists err, PackagexmlDiff.manifests w options t1 t2 fs = (Rejected err, fs2).
Proof.
  intros E H. unfold PackagexmlDiff.manifests. unfold andThen at 1. rewrite E.
  destruct (readPackageXmls_cases w options t1 t2 fs2)
    as [(c1 & c2 & H1 & H2 & _)|[_ [err Er]]]; [destruct H; congruence|].
  exists err. unfold PackagexmlDiff.inspect, PackagexmlDiff.detectAndRemove.
  destruct (truthy (packagexml options)); [exact Er|].
  unfold andThen at 1 2. now rewrite Er.
Qed.

End ExitStatus.

(** C2, as amended: invalid arguments, a request for help included, end
    the run with status 0.  With valid arguments the status is 1 whenever
    a stage of the chain fails (an org that is not connected, no temp
    directory, a failed retrieval, an archive that cannot be extracted, a
    manifest that cannot be read, or any other rejection, a refused copy
    included); and when both manifests reach the comparison and no save is
    triggered, the status is 0 exactly when the manifests are identical
    line by line after trimming and 1 when they differ. *)
Theorem exit_status (w : World) (options : Options) (fs : gmap string string) :
  let status := fst (PackagexmlDiff.run w options fs) in
  (PackagexmlDiff.argsValid w options = false -> status = 0) /\
  (PackagexmlDiff.argsValid w options = true ->
   ((exists err fs', PackagexmlDiff.pipeline w options fs = (Rejected err, fs')) ->
    status = 1) /\
   (orgConnected w (PackagexmlDiff.str (org1 options)) = false \/
    orgConnected w (PackagexmlDiff.str (org2 options)) = false -> status = 1) /\
   (tmpDir w 0 = None \/ tmpDir w 1 = None -> status = 1) /\
   (forall t1 t2,
       tmpDir w 0 = Some t1 -> tmpDir w 1 = Some t2 ->
       retrieve w (PackagexmlDiff.str (org1 options))
         (PackagexmlDiff.retrieveCommand options t1) = None \/
       retrieve w (PackagexmlDiff.str (org2 options))
         (PackagexmlDiff.retrieveCommand options t2) = None ->
       status = 1) /\
   ((forall bytes, unzip w bytes = None) -> status = 1) /\
   (forall t1 t2 x fs2,
       tmpDir w 0 = Some t1 -> tmpDir w 1 = Some t2 ->
       (PackagexmlDiff.retrieveMetadata w options t1 t2
          >>> (fun _ => PackagexmlDiff.unzipMetadata w t1 t2)) fs = (Resolved x, fs2) ->
       fs2 !! Utils.getPackageXMLPath w options t1 = None \/
       fs2 !! Utils.getPackageXMLPath w options t2 = None ->
       status = 1) /\
   (forall t1 t2 c1 c2 fs1,
       orgConnected w (PackagexmlDiff.str (org1 options)) = true ->
       orgConnected w (PackagexmlDiff.str (org2 options)) = true ->
       tmpDir w 0 = Some t1 -> tmpDir w 1 = Some t2 ->
       PackagexmlDiff.manifests w options t1 t2 fs = (Resolved [c1; c2], fs1) ->
       PackagexmlDiff.saveTriggered options (PackagexmlDiff.compare [c1; c2]) = false ->
       (Diff.trimmedLines c1 = Diff.trimmedLines c2 -> status = 0) /\
       (Diff.trimmedLines c1 <> Diff.trimmedLines c2 -> status = 1))).
Proof.
  intros status. subst status. split.
  - intros H. now rewrite run_invalid.
  - intros Hv.
    assert ((exists err fs', PackagexmlDiff.pipeline w options fs = (Rejected err, fs')) ->
            fst (PackagexmlDiff.run w options fs) = 1) as Hrej
        by (apply run_failure; assumption).
    split; [exact Hrej|]. split; [|split; [|split; [|split; [|split]]]].
    + intros H. apply Hrej.
      destruct (pipeline_cases w options fs)
        as [(t1 & t2 & H1 & H2 & _)|[_ [err E]]]; [destruct H; congruence|].
      now exists err, fs.
    + intros H. apply Hrej.
      destruct (pipeline_cases w options fs)
        as [(t1 & t2 & _ & _ & T1 & T2 & _)|[_ [err E]]]; [destruct H; congruence|].
      now exists err, fs.
    + intros t1 t2 T1 T2 H. apply Hrej.
      destruct (manifests_retrieve_failure w options t1 t2 fs H) as (err & fs1 & E).
      now apply pipeline_manifests_rejected with t1 t2 err fs1.
    + intros H. apply Hrej.
      destruct (pipeline_cases w options fs)
        as [(t1 & t2 & _ & _ & T1 & T2 & _)|[_ [err E]]]; [|now exists err, fs].
      destruct (manifests_unzip_failure w options t1 t2 fs H) as (err & fs1 & E).
      now apply pipeline_manifests_rejected with t1 t2 err fs1.
    + intros t1 t2 x fs2 T1 T2 E H. apply Hrej.
      destruct (manifests_unreadable w options fs t1 t2 x fs2 E H) as [err Em].
      now apply pipeline_manifests_rejected with t1 t2 err fs2.
    + intros t1 t2 c1 c2 fs1 H1 H2 T1 T2 Em Hs.
      pose proof (pipeline_reaches_save w options fs t1 t2 [c1; c2] fs1 H1 H2 T1 T2 Em) as E.
      rewrite save_not_triggered in E by assumption.
      rewrite (run_code w options fs fs1 _ Hv E (compare_range _)). cbn [fst].
      split; intros H; [now apply compare_equal | now apply compare_different].
Qed.

Lemma exit_status_witness :
  fst (PackagexmlDiff.run
         (Examples.world Examples.manifestNs1 Examples.manifestNs2 ValidatingExit)
         Examples.optionsWithoutOrg2 ∅) = 0.
Proof.
  apply (proj1 (exit_status
                  (Examples.world Examples.manifestNs1 Examples.manifestNs2 ValidatingExit)
                  Examples.optionsWithoutOrg2 ∅)).
  reflexivity.
Defined.

(** C2 as stated fails: a command line without [--org2] is an argument
    error, and the run ends with status 0, not 1. *)
Lemma missing_org_exits_zero :
  let w := Examples.world Examples.manifestNs1 Examples.manifestNs2 ValidatingExit in
  PackagexmlDiff.argsValid w Examples.optionsWithoutOrg2 = false /\
  fst (PackagexmlDiff.run w Examples.optionsWithoutOrg2 ∅) = 0 /\
  fst (PackagexmlDiff.run w Examples.optionsWithoutOrg2 ∅) <> 1.
Proof. vm_compute. repeat split. discriminate. Qed.

(** ** The exit after a save *)

(** C1 at a failing input: the manifests differ after the strip, the
    filtered parts are a removal and an addition, the result code is 1, and
    with [--save-packagexml diff] the chain hands the array
    [[1, undefined, undefined]] to [process.exit]; on a Node that coerces
    the argument the status is 0. *)
Theorem differing_manifests_saved :
  let w := Examples.world Examples.manifestNs1 Examples.manifestNs2c CoercingExit in
  let options := Examples.options "diff" in
  exists c1 c2,
    fst (PackagexmlDiff.manifests w options "/tmp/1" "/tmp/2" ∅) = Resolved [c1; c2] /\
    Diff.trimmedLines c1 <> Diff.trimmedLines c2 /\
    length (PackagexmlDiff.filteredChanges [c1; c2]) = 2%nat /\
    PackagexmlDiff.compare [c1; c2] = 1 /\
    fst (PackagexmlDiff.pipeline w options ∅) = Resolved (JArr [JNum 1; JUndefined; JUndefined]) /\
    fst (PackagexmlDiff.run w options ∅) = 0.
Proof.
  eexists _, _. split; [vm_compute; reflexivity|].
  split; [vm_compute; discriminate|].
  repeat split; vm_compute; reflexivity.
Qed.

(** C3 at a failing input: the manifests are identical after the strip,
    no part passes the filter, the result code is 0, and with
    [--save-packagexml always] the chain hands the array
    [[0, undefined, undefined]] to [process.exit]; on a Node that validates
    the argument the call throws, the [catch] runs and the status is 1. *)
Theorem identical_manifests_saved :
  let w := Examples.world Examples.manifestNs1 Examples.manifestNs2 ValidatingExit in
  let options := Examples.options "always" in
  exists c1 c2,
    fst (PackagexmlDiff.manifests w options "/tmp/1" "/tmp/2" ∅) = Resolved [c1; c2] /\
    Diff.trimmedLines c1 = Diff.trimmedLines c2 /\
    PackagexmlDiff.filteredChanges [c1; c2] = [] /\
    PackagexmlDiff.compare [c1; c2] = 0 /\
    fst (PackagexmlDiff.pipeline w options ∅) = Resolved (JArr [JNum 0; JUndefined; JUndefined]) /\
    fst (PackagexmlDiff.run w options ∅) = 1.
Proof.
  eexists _, _. split; [vm_compute; reflexivity|].
  repeat split; vm_compute; reflexivity.
Qed.

(** ** The scenarios of the specification *)

(** Scenario A: the marker lines differ, the rest agrees; exit 0. *)
Example scenario_A (rt : runtime) :
  fst (PackagexmlDiff.run (Examples.world Examples.manifestNs1 Examples.manifestNs2 rt)
         (Examples.options "never") ∅) = 0.
Proof. destruct rt; vm_compute; reflexivity. Qed.

(** Scenario B: after the strip the third lines differ; one removed and
    one added part, exit 1. *)
Example scenario_B (rt : runtime) :
  fst (PackagexmlDiff.run (Examples.world Examples.manifestNs1 Examples.manifestNs2c rt)
         (Examples.options "never") ∅) = 1 /\
  map (fun part => (Diff.propTruthy (Diff.added part), trim (Diff.value part)))
    (PackagexmlDiff.filteredChanges
       [PackagexmlDiff.stripMarker Examples.manifestNs1;
        PackagexmlDiff.stripMarker Examples.manifestNs2c])
  = [(false, "<b/>"); (true, "<c/>")].
Proof. split; [destruct rt|]; vm_compute; reflexivity. Qed.

(** Scenario C: with an explicit manifest the strip is skipped; identical
    manifests that hold a marker line give exit 0. *)
Example scenario_C (rt : runtime) :
  let w := Examples.worldWith "unpackaged/package.xml"
             Examples.manifestNs1 Examples.manifestNs1 rt in
  fst (PackagexmlDiff.manifests w Examples.optionsWithManifest "/tmp/1" "/tmp/2" ∅)
  = Resolved [Examples.manifestNs1; Examples.manifestNs1] /\
  fst (PackagexmlDiff.run w Examples.optionsWithManifest ∅) = 0.
Proof. destruct rt; vm_compute; split; reflexivity. Qed.

(** * Further properties of the helpers and of the run *)

(** ** Copying files *)

Lemma copyFile_resolved_inv (w : World) (src dest : string) (force : bool)
    (fs fs' : gmap string string) (v : jsval) :
  AsyncFsUtils.copyFile w src dest force fs = (Resolved v, fs') ->
  exists content,
    fs !! src = Some content /\ fs' = <[dest := content]> fs /\
    (force = false -> fs !! dest = None).
Proof.
  unfold AsyncFsUtils.copyFile.
  destruct (AsyncFsUtils.fileExists src fs) eqn:Es; cbn [negb]; [|discriminate].
  apply fileExists_true in Es as [content Hc].
  destruct (AsyncFsUtils.fileExists dest fs) eqn:Ed.
  - destruct force; cbn [negb andb]; [|discriminate].
    unfold andThen, AsyncFsUtils.deleteFile. rewrite Ed. cbn [negb].
    destruct (decide (src = dest)) as [->|Hne].
    + rewrite lookup_delete_eq. discriminate.
    + rewrite lookup_delete_ne by congruence. rewrite Hc.
      destruct (copyFails w src dest); [discriminate|].
      intros [= _ <-]. exists content. rewrite insert_delete_eq. repeat split.
      discriminate.
  - cbn [andb]. unfold andThen, resolve. rewrite Hc.
    destruct (copyFails w src dest); [discriminate|].
    intros [= _ <-]. exists content. repeat split.
    intros _. now apply fileExists_false.
Qed.

(** X1: a copy that succeeds, forced or not, leaves the content of the
    source under the destination name and changes nothing else; without
    [force] the destination did not exist before. *)
Theorem copyFile_resolved (w : World) (src dest : string) (force : bool)
    (fs fs' : gmap string string) (v : jsval) :
  AsyncFsUtils.copyFile w src dest force fs = (Resolved v, fs') ->
  exists content,
    fs !! src = Some content /\ fs' = <[dest := content]> fs /\
    (force = false -> fs !! dest = None).
Proof. apply copyFile_resolved_inv. Qed.

Lemma copyFile_resolved_witness :
  exists content,
    MoreExamples.diskWithTarget !! "/tmp/1/package.xml" = Some content /\
    snd (AsyncFsUtils.copyFile MoreExamples.archiveWorld "/tmp/1/package.xml"
           "/out/copy.xml" true MoreExamples.diskWithTarget)
    = <["/out/copy.xml" := content]> MoreExamples.diskWithTarget /\
    (true = false -> MoreExamples.diskWithTarget !! "/out/copy.xml" = None).
Proof.
  apply (copyFile_resolved MoreExamples.archiveWorld "/tmp/1/package.xml" "/out/copy.xml"
           true MoreExamples.diskWithTarget _ JUndefined).
  apply pair_of_fst. reflexivity.
Defined.

(** X2: copying a file onto itself is always rejected, with or without
    [force]. *)
Theorem copyFile_same_path_rejected (w : World) (path : string) (force : bool)
    (fs : gmap string string) :
  exists err, fst (AsyncFsUtils.copyFile w path path force fs) = Rejected err.
Proof.
  unfold AsyncFsUtils.copyFile.
  destruct (AsyncFsUtils.fileExists path fs) eqn:E; cbn [negb]; [|now eexists].
  destruct force; cbn [negb andb]; [|now eexists].
  unfold andThen, AsyncFsUtils.deleteFile. rewrite E. cbn [negb].
  rewrite lookup_delete_eq. now eexists.
Qed.

(** X3: whatever its outcome, a copy changes no file other than the
    destination. *)
Theorem copyFile_frame (w : World) (src dest path : string) (force : bool)
    (fs : gmap string string) :
  path <> dest ->
  snd (AsyncFsUtils.copyFile w src dest force fs) !! path = fs !! path.
Proof.
  intros Hne. unfold AsyncFsUtils.copyFile.
  destruct (AsyncFsUtils.fileExists src fs); cbn [negb]; [|reflexivity].
  destruct (AsyncFsUtils.fileExists dest fs) eqn:Ed; destruct force; cbn [negb andb];
    try reflexivity; unfold andThen, AsyncFsUtils.deleteFile, resolve;
    rewrite ?Ed; cbn [negb].
  - destruct (delete dest fs !! src); [destruct (copyFails w src dest)|]; cbn [snd];
      rewrite ?lookup_insert_ne by congruence; now apply lookup_delete_ne.
  - destruct (fs !! src); [destruct (copyFails w src dest)|]; cbn [snd];
      rewrite ?lookup_insert_ne by congruence; reflexivity.
  - destruct (fs !! src); [destruct (copyFails w src dest)|]; cbn [snd];
      rewrite ?lookup_insert_ne by congruence; reflexivity.
Qed.

Lemma copyFile_frame_witness :
  snd (AsyncFsUtils.copyFile MoreExamples.archiveWorld "/tmp/1/package.xml"
         "/out/copy.xml" true MoreExamples.diskWithTarget) !! "/tmp/1/package.xml"
  = MoreExamples.diskWithTarget !! "/tmp/1/package.xml".
Proof.
  apply (copyFile_frame MoreExamples.archiveWorld "/tmp/1/package.xml" "/out/copy.xml"
           "/tmp/1/package.xml" true MoreExamples.diskWithTarget).
  discriminate.
Defined.

(** X4: without [force] a copy never changes or removes a file that
    exists: the disk afterwards extends the disk before. *)
Theorem copyFile_without_force_keeps (w : World) (src dest : string)
    (fs : gmap string string) :
  fs ⊆ snd (AsyncFsUtils.copyFile w src dest false fs).
Proof.
  destruct (copyFile_cases w src dest fs) as [(c & _ & Hd & _ & ->)|[_ [err ->]]]; cbn [snd].
  - now apply insert_subseteq.
  - reflexivity.
Qed.

(** X5: after a copy that succeeded, reading the destination gives what
    reading the source gives. *)
Theorem copyFile_then_readFile (w : World) (src dest : string) (force : bool)
    (fs fs' : gmap string string) (v : jsval) :
  AsyncFsUtils.copyFile w src dest force fs = (Resolved v, fs') ->
  exists content,
    AsyncFsUtils.readFile src fs = (Resolved content, fs) /\
    AsyncFsUtils.readFile src fs' = (Resolved content, fs') /\
    AsyncFsUtils.readFile dest fs' = (Resolved content, fs').
Proof.
  intros H.
  apply copyFile_resolved_inv in H as (content & Hc & -> & _).
  exists content. unfold AsyncFsUtils.readFile. rewrite Hc, lookup_insert_eq.
  repeat split.
  destruct (decide (src = dest)) as [->|Hne].
  - now rewrite lookup_insert_eq.
  - rewrite lookup_insert_ne by congruence. now rewrite Hc.
Qed.

Lemma copyFile_then_readFile_witness :
  exists content,
    AsyncFsUtils.readFile "/tmp/1/package.xml" Examples.diskWithManifests
    = (Resolved content, Examples.diskWithManifests) /\
    AsyncFsUtils.readFile "/tmp/1/package.xml"
      (snd (AsyncFsUtils.copyFile MoreExamples.archiveWorld "/tmp/1/package.xml"
              "/out/copy.xml" false Examples.diskWithManifests))
    = (Resolved content,
       snd (AsyncFsUtils.copyFile MoreExamples.archiveWorld "/tmp/1/package.xml"
              "/out/copy.xml" false Examples.diskWithManifests)) /\
    AsyncFsUtils.readFile "/out/copy.xml"
      (snd (AsyncFsUtils.copyFile MoreExamples.archiveWorld "/tmp/1/package.xml"
              "/out/copy.xml" false Examples.diskWithManifests))
    = (Resolved content,
       snd (AsyncFsUtils.copyFile MoreExamples.archiveWorld "/tmp/1/package.xml"
              "/out/copy.xml" false Examples.diskWithManifests)).
Proof.
  apply (copyFile_then_readFile MoreExamples.archiveWorld "/tmp/1/package.xml"
           "/out/copy.xml" false Examples.diskWithManifests _ JUndefined).
  apply pair_of_fst. reflexivity.
Defined.

(** ** Extracting an archive *)





(** ** What the stages of a run leave on disk *)

Section Keeps.

(** A relation between the disk before and after that is reflexive and
    transitive is kept by a chain when each operation keeps it. *)
Variable R : gmap string string -> gmap string string -> Prop.
Hypothesis R_refl : forall fs, R fs fs.
Hypothesis R_trans : forall a b c, R a b -> R b c -> R a c.

Lemma keeps_resolve {A : Type} (a : A) : Invariants.keeps R (resolve a).
Proof. intros fs. apply R_refl. Qed.

Lemma keeps_reject {A : Type} (err : string) : Invariants.keeps R (@reject A err).
Proof. intros fs. apply R_refl. Qed.

Lemma keeps_andThen {A B : Type} (p : io A) (f : A -> io B) :
  Invariants.keeps R p -> (forall a, Invariants.keeps R (f a)) ->
  Invariants.keeps R (p >>> f).
Proof.
  intros Hp Hf fs. unfold andThen. specialize (Hp fs).
  destruct (p fs) as [[a|err] fs1]; cbn [snd] in *; [|assumption].
  apply R_trans with fs1; [assumption|apply Hf].
Qed.

Lemma keeps_all {A : Type} (ps : list (io A)) :
  Forall (Invariants.keeps R) ps -> Invariants.keeps R (all ps).
Proof.
  induction 1 as [|p ps Hp _ IH]; intros fs; cbn [all].
  - apply R_refl.
  - specialize (Hp fs). destruct (p fs) as [r fs1]. specialize (IH fs1).
    destruct (all ps fs1) as [rs fs2]. cbn [snd] in *.
    now apply R_trans with fs1.
Qed.

Lemma keeps_readFile (path : string) : Invariants.keeps R (AsyncFsUtils.readFile path).
Proof.
  intros fs. unfold AsyncFsUtils.readFile. destruct (fs !! path); apply R_refl.
Qed.

Lemma keeps_readPackageXmls (w : World) (options : Options) (t1 t2 : string) :
  Invariants.keeps R (PackagexmlDiff.readPackageXmls w options t1 t2).
Proof. apply keeps_all. repeat constructor; apply keeps_readFile. Qed.

End Keeps.

(** ** The save step and existing files *)

Lemma subseteq_refl_map (fs : gmap string string) : fs ⊆ fs.
Proof. reflexivity. Qed.

Lemma subseteq_trans_map (a b c : gmap string string) : a ⊆ b -> b ⊆ c -> a ⊆ c.
Proof. intros H1 H2. now transitivity b. Qed.

Lemma keeps_copyFile_subseteq (w : World) (src dest : string) :
  Invariants.keeps (⊆) (AsyncFsUtils.copyFile w src dest false).
Proof.
  intros fs.
  destruct (copyFile_cases w src dest fs) as [(c & _ & Hd & _ & ->)|[_ [err ->]]]; cbn [snd].
  - now apply insert_subseteq.
  - reflexivity.
Qed.

(** X7: the save step never changes or removes a file that exists,
    whatever the policy and the outcome: the disk afterwards extends the
    disk before. *)
Theorem save_keeps_existing_files (w : World) (options : Options)
    (tmpdir1 tmpdir2 : string) (rc : Z) (fs : gmap string string) :
  fs ⊆ snd (PackagexmlDiff.save w options tmpdir1 tmpdir2 rc fs).
Proof.
  revert fs. change (Invariants.keeps (⊆) (PackagexmlDiff.save w options tmpdir1 tmpdir2 rc)).
  unfold PackagexmlDiff.save.
  destruct (PackagexmlDiff.saveTriggered options rc);
    [|apply keeps_resolve, subseteq_refl_map].
  destruct (save_dir options) as [dir|]; [|apply keeps_reject, subseteq_refl_map].
  apply keeps_andThen; try apply subseteq_refl_map; try apply subseteq_trans_map.
  - apply keeps_all; try apply subseteq_refl_map; try apply subseteq_trans_map.
    repeat constructor; try apply keeps_copyFile_subseteq.
    apply keeps_resolve, subseteq_refl_map.
  - intros l. apply keeps_resolve, subseteq_refl_map.
Qed.

Lemma copyFile_dom (w : World) (src dest : string) (fs : gmap string string) :
  dom (snd (AsyncFsUtils.copyFile w src dest false fs)) ⊆ {[dest]} ∪ dom fs.
Proof.
  destruct (copyFile_cases w src dest fs) as [(c & _ & _ & _ & ->)|[_ [err ->]]]; cbn [snd].
  - now rewrite dom_insert_L.
  - apply union_subseteq_r.
Qed.

Lemma save_dom (w : World) (options : Options) (tmpdir1 tmpdir2 dir : string)
    (rc : Z) (fs : gmap string string) :
  save_dir options = Some dir ->
  dom (snd (PackagexmlDiff.save w options tmpdir1 tmpdir2 rc fs))
  ⊆ {[join w [dir; PackagexmlDiff.saveName "2" (clock w 1)]]}
    ∪ ({[join w [dir; PackagexmlDiff.saveName "1" (clock w 0)]]} ∪ dom fs).
Proof.
  intros Hdir. unfold PackagexmlDiff.save. rewrite Hdir.
  destruct (PackagexmlDiff.saveTriggered options rc).
  - unfold andThen. cbn [all]. unfold resolve at 1.
    pose proof (copyFile_dom w (Utils.getPackageXMLPath w options tmpdir1)
                  (join w [dir; PackagexmlDiff.saveName "1" (clock w 0)]) fs) as H1.
    destruct (AsyncFsUtils.copyFile w (Utils.getPackageXMLPath w options tmpdir1)
                (join w [dir; PackagexmlDiff.saveName "1" (clock w 0)]) false fs)
      as [r1 fs1].
    pose proof (copyFile_dom w (Utils.getPackageXMLPath w options tmpdir2)
                  (join w [dir; PackagexmlDiff.saveName "2" (clock w 1)]) fs1) as H2.
    destruct (AsyncFsUtils.copyFile w (Utils.getPackageXMLPath w options tmpdir2)
                (join w [dir; PackagexmlDiff.saveName "2" (clock w 1)]) false fs1)
      as [r2 fs2].
    cbn [snd] in *. unfold resolve.
    assert (dom fs2 ⊆ {[join w [dir; PackagexmlDiff.saveName "2" (clock w 1)]]}
                       ∪ ({[join w [dir; PackagexmlDiff.saveName "1" (clock w 0)]]}
                            ∪ dom fs)) as H.
    { etransitivity; [exact H2|]. now apply union_mono_l. }
    destruct r1, r2; exact H.
  - cbn [snd]. etransitivity; [|apply union_subseteq_r]. apply union_subseteq_r.
Qed.

(** X8: whatever happens to the copies, the save step writes at most two
    files, and only under the two destination names in the save
    directory. *)
Theorem save_writes_at_most_two (w : World) (options : Options)
    (tmpdir1 tmpdir2 : string) (rc : Z) (fs : gmap string string) :
  (AsyncFsUtils.filesWritten fs
     (snd (PackagexmlDiff.save w options tmpdir1 tmpdir2 rc fs)) <= 2)%nat /\
  (forall dir path,
      save_dir options = Some dir ->
      fs !! path = None ->
      is_Some (snd (PackagexmlDiff.save w options tmpdir1 tmpdir2 rc fs) !! path) ->
      path = join w [dir; PackagexmlDiff.saveName "1" (clock w 0)] \/
      path = join w [dir; PackagexmlDiff.saveName "2" (clock w 1)]).
Proof.
  split.
  - unfold AsyncFsUtils.filesWritten.
    destruct (save_dir options) as [dir|] eqn:Hdir.
    + pose proof (save_dom w options tmpdir1 tmpdir2 dir rc fs Hdir) as H.
      set (d1 := join w [dir; PackagexmlDiff.saveName "1" (clock w 0)]) in *.
      set (d2 := join w [dir; PackagexmlDiff.saveName "2" (clock w 1)]) in *.
      transitivity (size ({[d2]} ∪ {[d1]} : gset string)).
      * apply subseteq_size. intros x Hx. apply elem_of_difference in Hx as [Hx Hn].
        apply H in Hx. rewrite !elem_of_union in Hx. rewrite elem_of_union. tauto.
      * rewrite size_union_alt.
        pose proof (subseteq_size ({[d1]} ∖ {[d2]} : gset string) {[d1]}
                      (subseteq_difference_l _ _ _ (reflexivity _))) as Hle.
        rewrite !size_singleton in *. lia.
    + unfold PackagexmlDiff.save. rewrite Hdir.
      destruct (PackagexmlDiff.saveTriggered options rc); cbn [snd];
        rewrite difference_diag_L, size_empty; lia.
  - intros dir path Hdir Hnone Hsome.
    pose proof (save_dom w options tmpdir1 tmpdir2 dir rc fs Hdir) as H.
    apply elem_of_dom in Hsome. apply H in Hsome.
    rewrite !elem_of_union, !elem_of_singleton in Hsome.
    destruct Hsome as [->|[->|Hd]]; [now right|now left|].
    apply elem_of_dom in Hd. rewrite Hnone in Hd. now destruct Hd.
Qed.

Lemma save_writes_at_most_two_witness :
  "/out/package-1-2018-04-03T14:00:59Z.xml"
  = join (Examples.world "" "" CoercingExit)
      ["/out"; PackagexmlDiff.saveName "1" (clock (Examples.world "" "" CoercingExit) 0)] \/
  "/out/package-1-2018-04-03T14:00:59Z.xml"
  = join (Examples.world "" "" CoercingExit)
      ["/out"; PackagexmlDiff.saveName "2" (clock (Examples.world "" "" CoercingExit) 1)].
Proof.
  apply (proj2 (save_writes_at_most_two (Examples.world "" "" CoercingExit)
                  (Examples.options "always") "/tmp/1" "/tmp/2" 0
                  Examples.diskWithManifests) "/out").
  - reflexivity.
  - reflexivity.
  - vm_compute. eexists. reflexivity.
Defined.

(** ** The inspection stage *)

(** X9: with the two manifests in different files, the inspection returns
    the two texts as they are and writes nothing when the retrieval was
    driven by an explicit manifest; otherwise it returns, and leaves in
    each file, the stripped text of that manifest. *)
Theorem inspect_contents (w : World) (options : Options) (tmpdir1 tmpdir2 : string)
    (fs : gmap string string) (c1 c2 : string) :
  let path1 := Utils.getPackageXMLPath w options tmpdir1 in
  let path2 := Utils.getPackageXMLPath w options tmpdir2 in
  path1 <> path2 -> fs !! path1 = Some c1 -> fs !! path2 = Some c2 ->
  PackagexmlDiff.inspect w options tmpdir1 tmpdir2 fs
  = if truthy (packagexml options)
    then (Resolved [c1; c2], fs)
    else (Resolved [PackagexmlDiff.stripMarker c1; PackagexmlDiff.stripMarker c2],
          <[path2 := PackagexmlDiff.stripMarker c2]>
            (<[path1 := PackagexmlDiff.stripMarker c1]> fs)).
Proof.
  intros path1 path2 Hne H1 H2. unfold PackagexmlDiff.inspect.
  destruct (truthy (packagexml options)).
  - destruct (readPackageXmls_cases w options tmpdir1 tmpdir2 fs)
      as [(d1 & d2 & D1 & D2 & ->)|[[H|H] _]].
    + fold path1 in D1. fold path2 in D2. congruence.
    + fold path1 in H. congruence.
    + fold path2 in H. congruence.
  - now apply detectAndRemove_contents.
Qed.

Lemma inspect_contents_witness :
  PackagexmlDiff.inspect (Examples.world "" "" CoercingExit) (Examples.options "never")
    "/tmp/1" "/tmp/2" Examples.diskWithManifests
  = (Resolved [PackagexmlDiff.stripMarker "<a/>"; PackagexmlDiff.stripMarker "<b/>"],
     <["/tmp/2/package.xml" := PackagexmlDiff.stripMarker "<b/>"]>
       (<["/tmp/1/package.xml" := PackagexmlDiff.stripMarker "<a/>"]>
          Examples.diskWithManifests)).
Proof.
  apply (inspect_contents (Examples.world "" "" CoercingExit) (Examples.options "never")
           "/tmp/1" "/tmp/2" Examples.diskWithManifests "<a/>" "<b/>").
  - discriminate.
  - reflexivity.
  - reflexivity.
Defined.

Lemma sameAt_refl (path : string) (fs : gmap string string) : Invariants.sameAt path fs fs.
Proof. reflexivity. Qed.

Lemma sameAt_trans (path : string) (a b c : gmap string string) :
  Invariants.sameAt path a b -> Invariants.sameAt path b c -> Invariants.sameAt path a c.
Proof. unfold Invariants.sameAt. congruence. Qed.

Lemma keeps_lineRemove_sameAt (path file : string) (n : nat) :
  path <> file ->
  Invariants.keeps (Invariants.sameAt path) (AsyncLineRemove.lineRemove file n).
Proof.
  intros Hne fs. unfold AsyncLineRemove.lineRemove, Invariants.sameAt.
  destruct (fs !! file); cbn [snd]; [|reflexivity].
  now rewrite lookup_insert_ne by congruence.
Qed.

(** X10: whatever its outcome, the inspection changes no file other than
    the two manifest files, and with an explicit manifest it changes no
    file at all. *)
Theorem inspect_touches_only_manifests (w : World) (options : Options)
    (tmpdir1 tmpdir2 : string) (fs : gmap string string) :
  (forall path,
      path <> Utils.getPackageXMLPath w options tmpdir1 ->
      path <> Utils.getPackageXMLPath w options tmpdir2 ->
      snd (PackagexmlDiff.inspect w options tmpdir1 tmpdir2 fs) !! path = fs !! path) /\
  (truthy (packagexml options) = true ->
   snd (PackagexmlDiff.inspect w options tmpdir1 tmpdir2 fs) = fs).
Proof.
  split.
  - intros path N1 N2. revert fs.
    change (Invariants.keeps (Invariants.sameAt path)
              (PackagexmlDiff.inspect w options tmpdir1 tmpdir2)).
    assert (forall fs, Invariants.sameAt path fs fs) as Hrefl by apply sameAt_refl.
    assert (forall a b c, Invariants.sameAt path a b -> Invariants.sameAt path b c ->
                          Invariants.sameAt path a c) as Htrans by apply sameAt_trans.
    unfold PackagexmlDiff.inspect, PackagexmlDiff.detectAndRemove.
    destruct (truthy (packagexml options)); [now apply keeps_readPackageXmls|].
    apply keeps_andThen; try assumption; [|intros; now apply keeps_readPackageXmls].
    apply keeps_andThen; try assumption; [now apply keeps_readPackageXmls|].
    intros contents. apply keeps_all; try assumption.
    apply Forall_app. split; unfold PackagexmlDiff.removal.
    + destruct (LineNumber.lineNumber _ _) as [|m [|]]; repeat constructor.
      now apply keeps_lineRemove_sameAt.
    + destruct (LineNumber.lineNumber _ _) as [|m [|]]; repeat constructor.
      now apply keeps_lineRemove_sameAt.
  - intros Ht. unfold PackagexmlDiff.inspect. rewrite Ht.
    symmetry. revert fs.
    change (Invariants.keeps eq (PackagexmlDiff.readPackageXmls w options tmpdir1 tmpdir2)).
    apply keeps_readPackageXmls; congruence.
Qed.

Lemma inspect_touches_only_manifests_witness :
  snd (PackagexmlDiff.inspect (Examples.world "" "" CoercingExit)
         Examples.optionsWithManifest "/tmp/1" "/tmp/2" Examples.diskWithManifests)
  = Examples.diskWithManifests.
Proof.
  apply (proj2 (inspect_touches_only_manifests (Examples.world "" "" CoercingExit)
                  Examples.optionsWithManifest "/tmp/1" "/tmp/2"
                  Examples.diskWithManifests)).
  reflexivity.
Defined.

(** ** What a run leaves on disk *)

Lemma noneRemoved_refl (fs : gmap string string) : Invariants.noneRemoved fs fs.
Proof. unfold Invariants.noneRemoved. reflexivity. Qed.

Lemma noneRemoved_trans (a b c : gmap string string) :
  Invariants.noneRemoved a b -> Invariants.noneRemoved b c -> Invariants.noneRemoved a c.
Proof. unfold Invariants.noneRemoved. intros H1 H2. now transitivity (dom b). Qed.

Lemma noneRemoved_insert (fs : gmap string string) (path content : string) :
  Invariants.noneRemoved fs (<[path := content]> fs).
Proof. apply dom_insert_subseteq. Qed.

Lemma noneRemoved_foldl (w : World) (dest : string) (entries : list (string * string))
    (fs : gmap string string) :
  Invariants.noneRemoved fs (foldl (AsyncFsUtils.extractEntry w dest) fs entries).
Proof.
  revert fs. induction entries as [|e es IH]; intros fs; cbn [foldl].
  - apply noneRemoved_refl.
  - eapply noneRemoved_trans; [|apply IH]. apply noneRemoved_insert.
Qed.

Section NoneRemoved.

Variable w : World.
Variable options : Options.

Lemma keeps_ensureOrgConnected (org : string) :
  Invariants.keeps Invariants.noneRemoved (SalesforceDX.ensureOrgConnected w org).
Proof.
  intros fs. unfold SalesforceDX.ensureOrgConnected.
  destruct (orgConnected w org); apply noneRemoved_refl.
Qed.

Lemma keeps_createTempDir (k : nat) :
  Invariants.keeps Invariants.noneRemoved (AsyncFsUtils.createTempDir w k).
Proof.
  intros fs. unfold AsyncFsUtils.createTempDir.
  destruct (tmpDir w k); apply noneRemoved_refl.
Qed.

Lemma keeps_executeSFDXCommand (org command targetdir : string) :
  Invariants.keeps Invariants.noneRemoved
    (SalesforceDX.executeSFDXCommand w org command targetdir).
Proof.
  intros fs. unfold SalesforceDX.executeSFDXCommand.
  destruct (retrieve w org command); [apply noneRemoved_insert|apply noneRemoved_refl].
Qed.

Lemma keeps_unzipFile (file dest : string) :
  Invariants.keeps Invariants.noneRemoved (AsyncFsUtils.unzipFile w file dest).
Proof.
  intros fs. unfold AsyncFsUtils.unzipFile.
  destruct (fs !! file) as [bytes|]; [|apply noneRemoved_refl].
  destruct (unzip w bytes); [apply noneRemoved_foldl|apply noneRemoved_refl].
Qed.

Lemma keeps_lineRemove (file : string) (n : nat) :
  Invariants.keeps Invariants.noneRemoved (AsyncLineRemove.lineRemove file n).
Proof.
  intros fs. unfold AsyncLineRemove.lineRemove.
  destruct (fs !! file); [apply noneRemoved_insert|apply noneRemoved_refl].
Qed.

Lemma keeps_save (t1 t2 : string) (rc : Z) :
  Invariants.keeps Invariants.noneRemoved (PackagexmlDiff.save w options t1 t2 rc).
Proof.
  intros fs. unfold Invariants.noneRemoved. apply subseteq_dom.
  revert fs. change (Invariants.keeps (⊆) (PackagexmlDiff.save w options t1 t2 rc)).
  unfold PackagexmlDiff.save.
  destruct (PackagexmlDiff.saveTriggered options rc);
    [|apply keeps_resolve, subseteq_refl_map].
  destruct (save_dir options) as [dir|]; [|apply keeps_reject, subseteq_refl_map].
  apply keeps_andThen; try apply subseteq_refl_map; try apply subseteq_trans_map.
  - apply keeps_all; try apply subseteq_refl_map; try apply subseteq_trans_map.
    repeat constructor; try apply keeps_copyFile_subseteq.
    apply keeps_resolve, subseteq_refl_map.
  - intros l. apply keeps_resolve, subseteq_refl_map.
Qed.

Lemma keeps_inspect (t1 t2 : string) :
  Invariants.keeps Invariants.noneRemoved (PackagexmlDiff.inspect w options t1 t2).
Proof.
  pose proof noneRemoved_refl as Hr. pose proof noneRemoved_trans as Ht.
  unfold PackagexmlDiff.inspect, PackagexmlDiff.detectAndRemove.
  destruct (truthy (packagexml options)); [now apply keeps_readPackageXmls|].
  apply keeps_andThen; try assumption; [|intros; now apply keeps_readPackageXmls].
  apply keeps_andThen; try assumption; [now apply keeps_readPackageXmls|].
  intros contents. apply keeps_all; try assumption.
  apply Forall_app. split; unfold PackagexmlDiff.removal;
    destruct (LineNumber.lineNumber _ _) as [|m [|]]; repeat constructor;
    apply keeps_lineRemove.
Qed.

Lemma keeps_manifests (t1 t2 : string) :
  Invariants.keeps Invariants.noneRemoved (PackagexmlDiff.manifests w options t1 t2).
Proof.
  pose proof noneRemoved_refl as Hr. pose proof noneRemoved_trans as Ht.
  unfold PackagexmlDiff.manifests.
  apply keeps_andThen; try assumption; [|intros; apply keeps_inspect].
  apply keeps_andThen; try assumption.
  - apply keeps_all; try assumption. repeat constructor; apply keeps_executeSFDXCommand.
  - intros _. apply keeps_all; try assumption. repeat constructor; apply keeps_unzipFile.
Qed.

Lemma keeps_pipeline :
  Invariants.keeps Invariants.noneRemoved (PackagexmlDiff.pipeline w options).
Proof.
  pose proof noneRemoved_refl as Hr. pose proof noneRemoved_trans as Ht.
  unfold PackagexmlDiff.pipeline.
  apply keeps_andThen; try assumption.
  - apply keeps_andThen; try assumption.
    + apply keeps_all; try assumption. repeat constructor; apply keeps_ensureOrgConnected.
    + intros _. apply keeps_all; try assumption.
      repeat constructor; apply keeps_createTempDir.
  - intros tempdirs. unfold PackagexmlDiff.afterTempDirs.
    apply keeps_andThen; try assumption; [|intros; apply keeps_save].
    apply keeps_andThen; try assumption; [apply keeps_manifests|].
    intros contents. now apply keeps_resolve.
Qed.

End NoneRemoved.

(** X11: a run never removes a file: every path that holds a file before
    the run holds one after it, whatever the arguments, the orgs and the
    outcome. *)
Theorem run_removes_no_file (w : World) (options : Options) (fs : gmap string string)
    (path : string) :
  is_Some (fs !! path) -> is_Some (snd (PackagexmlDiff.run w options fs) !! path).
Proof.
  intros H. apply elem_of_dom. apply elem_of_dom in H. revert H.
  assert (dom fs ⊆ dom (snd (PackagexmlDiff.run w options fs))) as Hsub; [|apply Hsub].
  unfold PackagexmlDiff.run.
  destruct (PackagexmlDiff.argsValid w options); cbn [negb snd]; [|reflexivity].
  pose proof (keeps_pipeline w options fs) as Hk. unfold Invariants.noneRemoved in Hk.
  destruct (PackagexmlDiff.pipeline w options fs) as [[v|err] fs']; cbn [snd] in *;
    [destruct (processExit (node w) v)|]; exact Hk.
Qed.

Lemma run_removes_no_file_witness :
  is_Some (snd (PackagexmlDiff.run
                  (Examples.world Examples.manifestNs1 Examples.manifestNs2c CoercingExit)
                  (Examples.options "always") Examples.diskWithCopies)
           !! "/out/package-1-2018-04-03T14:00:59Z.xml").
Proof.
  apply (run_removes_no_file
           (Examples.world Examples.manifestNs1 Examples.manifestNs2c CoercingExit)
           (Examples.options "always") Examples.diskWithCopies).
  eexists. reflexivity.
Defined.

(** ** The exit status, further *)

(** The value of a chain that resolves: the result code, bare or as the
    first of three elements. *)
Lemma pipeline_value (w : World) (options : Options) (fs fs' : gmap string string)
    (v : jsval) :
  PackagexmlDiff.pipeline w options fs = (Resolved v, fs') ->
  exists rc,
    (rc = 0 \/ rc = 1) /\
    ((PackagexmlDiff.saveTriggered options rc = false /\ v = JNum rc) \/
     (PackagexmlDiff.saveTriggered options rc = true /\
      v = JArr [JNum rc; JUndefined; JUndefined])).
Proof.
  intros H.
  destruct (pipeline_cases w options fs)
    as [(t1 & t2 & _ & _ & _ & _ & E)|[_ [err E]]]; rewrite E in H; [|discriminate].
  destruct (afterTempDirs_cases w options t1 t2 fs)
    as [(c1 & c2 & fs1 & _ & _ & _ & Ea)|(err & fs1 & _ & Ea)];
    rewrite Ea in H; [|discriminate].
  exists (PackagexmlDiff.compare [c1; c2]). split; [apply compare_range|].
  destruct (PackagexmlDiff.saveTriggered options (PackagexmlDiff.compare [c1; c2])) eqn:T.
  - right. split; [reflexivity|]. now apply save_resolved in H.
  - left. split; [reflexivity|]. rewrite save_not_triggered in H by assumption.
    now injection H as <- _.
Qed.

(** X12: every run ends with status 0 or 1, on either kind of Node. *)
Theorem run_status_range (w : World) (options : Options) (fs : gmap string string) :
  fst (PackagexmlDiff.run w options fs) = 0 \/ fst (PackagexmlDiff.run w options fs) = 1.
Proof.
  unfold PackagexmlDiff.run.
  destruct (PackagexmlDiff.argsValid w options); cbn [negb]; [|now left].
  destruct (PackagexmlDiff.pipeline w options fs) as [[v|err] fs'] eqn:E; [|now right].
  destruct (pipeline_value w options fs fs' v E) as (rc & Hrc & [[_ ->]|[_ ->]]).
  - rewrite processExit_code by assumption. cbn [fst]. exact Hrc.
  - destruct (node w); cbn; auto.
Qed.

(** X13: with [--save-packagexml always] the status says nothing about
    the comparison: on a Node that validates the exit argument every run
    with valid arguments ends with status 1, and on a Node that coerces it
    every run whose chain completes ends with status 0. *)
Theorem always_policy_status (w : World) (options : Options) (fs : gmap string string) :
  PackagexmlDiff.argsValid w options = true ->
  save_packagexml options = Some "always" ->
  (node w = ValidatingExit -> fst (PackagexmlDiff.run w options fs) = 1) /\
  (node w = CoercingExit ->
   forall v fs', PackagexmlDiff.pipeline w options fs = (Resolved v, fs') ->
                 fst (PackagexmlDiff.run w options fs) = 0).
Proof.
  intros Hv Hp.
  assert (forall v fs', PackagexmlDiff.pipeline w options fs = (Resolved v, fs') ->
            exists rc, v = JArr [JNum rc; JUndefined; JUndefined]) as Harr.
  { intros v fs' E.
    destruct (pipeline_value w options fs fs' v E) as (rc & _ & [[T _]|[_ ->]]).
    - rewrite saveTriggered_always in T by assumption. discriminate.
    - now exists rc. }
  unfold PackagexmlDiff.run. rewrite Hv. cbn [negb]. split.
  - intros Hn.
    destruct (PackagexmlDiff.pipeline w options fs) as [[v|err] fs'] eqn:E; [|reflexivity].
    destruct (Harr v fs' eq_refl) as [rc ->]. now rewrite Hn.
  - intros Hn v fs' E. rewrite E.
    destruct (Harr v fs' E) as [rc ->]. now rewrite Hn.
Qed.

Lemma always_policy_status_witness :
  fst (PackagexmlDiff.run
         (Examples.world Examples.manifestNs1 Examples.manifestNs2 ValidatingExit)
         (Examples.options "always") ∅) = 1.
Proof.
  apply (proj1 (always_policy_status
                  (Examples.world Examples.manifestNs1 Examples.manifestNs2 ValidatingExit)
                  (Examples.options "always") ∅ eq_refl eq_refl)).
  reflexivity.
Defined.



(** ** The comparison and the strip, further *)

(** X15: the result code of the comparison is 0 exactly when the two
    texts have the same lines after trimming, and 1 otherwise. *)
Theorem compare_zero_iff (c1 c2 : string) :
  (PackagexmlDiff.compare [c1; c2] = 0 <-> Diff.trimmedLines c1 = Diff.trimmedLines c2) /\
  (PackagexmlDiff.compare [c1; c2] = 1 <-> Diff.trimmedLines c1 <> Diff.trimmedLines c2).
Proof.
  destruct (decide (Diff.trimmedLines c1 = Diff.trimmedLines c2)) as [E|E].
  - rewrite (compare_equal c1 c2 E). split; split; try tauto; try discriminate.
  - rewrite (compare_different c1 c2 E). split; split; try tauto; try discriminate.
Qed.






(** ** The timestamp, further *)

Lemma digit_inj (a b : Z) :
  0 <= a <= 9 -> 0 <= b <= 9 -> TimestampFormat.digit a = TimestampFormat.digit b -> a = b.
Proof.
  unfold TimestampFormat.digit. intros Ha Hb H.
  apply (f_equal nat_of_ascii) in H.
  rewrite !nat_ascii_embedding in H by lia. lia.
Qed.

Lemma twoDigits_inj (a b : Z) :
  0 <= a < 100 -> 0 <= b < 100 ->
  TimestampFormat.twoDigits a = TimestampFormat.twoDigits b -> a = b.
Proof.
  unfold TimestampFormat.twoDigits. intros Ha Hb H. injection H as H1 H2.
  apply digit_inj in H1; [|Z.to_euclidean_division_equations; lia..].
  apply digit_inj in H2; [|Z.to_euclidean_division_equations; lia..].
  Z.to_euclidean_division_equations; lia.
Qed.

Lemma fourDigits_inj (a b : Z) :
  1000 <= a <= 9999 -> 1000 <= b <= 9999 ->
  TimestampFormat.fourDigits a = TimestampFormat.fourDigits b -> a = b.
Proof.
  unfold TimestampFormat.fourDigits. intros Ha Hb H. injection H as H1 H2 H3 H4.
  apply digit_inj in H1; [|Z.to_euclidean_division_equations; lia..].
  apply digit_inj in H2; [|Z.to_euclidean_division_equations; lia..].
  apply digit_inj in H3; [|Z.to_euclidean_division_equations; lia..].
  apply digit_inj in H4; [|Z.to_euclidean_division_equations; lia..].
  Z.to_euclidean_division_equations; lia.
Qed.

(** X18: two different instants give different timestamps, so saves made
    at different seconds never get the same file name; the month counted
    from zero does not merge any two dates. *)
Theorem getTimestamp_distinct (d1 d2 : Date) :
  validDate d1 -> 1000 <= year d1 <= 9999 ->
  validDate d2 -> 1000 <= year d2 <= 9999 ->
  d1 <> d2 ->
  Utils.getTimestamp d1 <> Utils.getTimestamp d2 /\
  (forall k, PackagexmlDiff.saveName k d1 <> PackagexmlDiff.saveName k d2).
Proof.
  intros V1 Y1 V2 Y2 Hne.
  assert (Utils.getTimestamp d1 <> Utils.getTimestamp d2) as Hts.
  { intros E. apply Hne.
    rewrite !getTimestamp_stamp in E by assumption.
    destruct V1 as (M1 & D1 & H1 & Mi1 & S1), V2 as (M2 & D2 & H2 & Mi2 & S2).
    destruct d1 as [y1 mo1 da1 h1 mi1 s1], d2 as [y2 mo2 da2 h2 mi2 s2].
    cbn [year month day hours minutes seconds] in *.
    unfold TimestampFormat.stamp in E.
    cbn [year month day hours minutes seconds] in E.
    assert (TimestampFormat.fourDigits y1 = TimestampFormat.fourDigits y2 /\
            TimestampFormat.twoDigits (mo1 - 1) = TimestampFormat.twoDigits (mo2 - 1) /\
            TimestampFormat.twoDigits da1 = TimestampFormat.twoDigits da2 /\
            TimestampFormat.twoDigits h1 = TimestampFormat.twoDigits h2 /\
            TimestampFormat.twoDigits mi1 = TimestampFormat.twoDigits mi2 /\
            TimestampFormat.twoDigits s1 = TimestampFormat.twoDigits s2)
      as (Ey & Emo & Eda & Eh & Emi & Es).
    { unfold TimestampFormat.fourDigits, TimestampFormat.twoDigits in *.
      cbn [String.append] in E. injection E as -> -> -> -> -> -> -> -> -> -> -> -> -> ->.
      repeat split. }
    apply fourDigits_inj in Ey; [|lia..].
    apply twoDigits_inj in Emo; [|lia..].
    apply twoDigits_inj in Eda; [|lia..].
    apply twoDigits_inj in Eh; [|lia..].
    apply twoDigits_inj in Emi; [|lia..].
    apply twoDigits_inj in Es; [|lia..].
    f_equal; lia. }
  split; [exact Hts|].
  intros k E. apply Hts. unfold PackagexmlDiff.saveName in E.
  rewrite !getTimestamp_stamp in * by assumption.
  apply String.app_inj in E. apply String.app_inj in E. apply String.app_inj in E.
  unfold TimestampFormat.stamp, TimestampFormat.fourDigits, TimestampFormat.twoDigits in *.
  cbn [String.append] in *.
  injection E as -> -> -> -> -> -> -> -> -> -> -> -> -> ->. reflexivity.
Qed.

Lemma getTimestamp_distinct_witness :
  Utils.getTimestamp Examples.instant <> Utils.getTimestamp MoreExamples.laterInstant /\
  (forall k, PackagexmlDiff.saveName k Examples.instant
             <> PackagexmlDiff.saveName k MoreExamples.laterInstant).
Proof.
  apply (getTimestamp_distinct Examples.instant MoreExamples.laterInstant);
    try (unfold validDate; simpl; lia); try (simpl; lia).
  discriminate.
Defined.

(** ** What is saved *)

(** X19: the copies a save writes hold the two texts that were compared,
    in package-name mode the stripped ones, not the manifests as they were
    retrieved. *)
Theorem saved_copies_hold_compared_texts (w : World) (options : Options)
    (tmpdir1 tmpdir2 dir : string) (contents : list string)
    (fs fs1 : gmap string string) (rc : Z) :
  PackagexmlDiff.manifests w options tmpdir1 tmpdir2 fs = (Resolved contents, fs1) ->
  PackagexmlDiff.saveTriggered options rc = true ->
  save_dir options = Some dir ->
  let dest1 := join w [dir; PackagexmlDiff.saveName "1" (clock w 0)] in
  let dest2 := join w [dir; PackagexmlDiff.saveName "2" (clock w 1)] in
  fs1 !! dest1 = None -> fs1 !! dest2 = None -> dest1 <> dest2 ->
  copyFails w (Utils.getPackageXMLPath w options tmpdir1) dest1 = false ->
  copyFails w (Utils.getPackageXMLPath w options tmpdir2) dest2 = false ->
  exists c1 c2,
    contents = [c1; c2] /\
    snd (PackagexmlDiff.save w options tmpdir1 tmpdir2 rc fs1) !! dest1 = Some c1 /\
    snd (PackagexmlDiff.save w options tmpdir1 tmpdir2 rc fs1) !! dest2 = Some c2.
Proof.
  intros Hm Ht Hdir dest1 dest2 Hd1 Hd2 Hne Hf1 Hf2.
  destruct (manifests_resolved w options tmpdir1 tmpdir2 fs fs1 contents Hm)
    as (c1 & c2 & -> & L1 & L2).
  exists c1, c2. split; [reflexivity|].
  rewrite (save_success w options tmpdir1 tmpdir2 rc fs1 dir c1 c2); try assumption.
  cbn [snd]. fold dest1 dest2. split.
  - rewrite lookup_insert_ne by congruence. apply lookup_insert_eq.
  - apply lookup_insert_eq.
Qed.

Lemma saved_copies_hold_compared_texts_witness :
  exists c1 c2,
    [PackagexmlDiff.stripMarker Examples.manifestNs1;
     PackagexmlDiff.stripMarker Examples.manifestNs2c] = [c1; c2] /\
    snd (PackagexmlDiff.save
           (Examples.world Examples.manifestNs1 Examples.manifestNs2c CoercingExit)
           (Examples.options "diff") "/tmp/1" "/tmp/2" 1
           (snd (PackagexmlDiff.manifests
                   (Examples.world Examples.manifestNs1 Examples.manifestNs2c CoercingExit)
                   (Examples.options "diff") "/tmp/1" "/tmp/2" ∅)))
      !! "/out/package-1-2018-04-03T14:00:59Z.xml" = Some c1 /\
    snd (PackagexmlDiff.save
           (Examples.world Examples.manifestNs1 Examples.manifestNs2c CoercingExit)
           (Examples.options "diff") "/tmp/1" "/tmp/2" 1
           (snd (PackagexmlDiff.manifests
                   (Examples.world Examples.manifestNs1 Examples.manifestNs2c CoercingExit)
                   (Examples.options "diff") "/tmp/1" "/tmp/2" ∅)))
      !! "/out/package-2-2018-04-03T14:00:59Z.xml" = Some c2.
Proof.
  apply (saved_copies_hold_compared_texts
           (Examples.world Examples.manifestNs1 Examples.manifestNs2c CoercingExit)
           (Examples.options "diff") "/tmp/1" "/tmp/2" "/out" _ ∅).
  - apply pair_of_fst. vm_compute. reflexivity.
  - reflexivity.
  - reflexivity.
  - vm_compute. reflexivity.
  - vm_compute. reflexivity.
  - discriminate.
  - reflexivity.
  - reflexivity.
Defined.
